(** * InNoHassle-Auth: session dependencies and the three login providers

    A shallow embedding of
      - src/api/dependencies.py
      - src/modules/providers/innopolis/routes.py
      - src/modules/providers/telegram/routes.py
      - src/modules/providers/email/routes.py

    The session ([request.session], a Python dict with string keys whose values
    are the strings these routes store) is a [gmap string string].  A handler is
    a computation over a state holding the session and the user repository; a
    raised exception keeps the state as mutated so far, as the dict is. *)

From Stdlib Require Import ZArith QArith Qround Qpower Lqa Ascii String List.
From stdpp Require Import base option list gmap strings.

Open Scope string_scope.
Open Scope Z_scope.

(** ** Exceptions and outcomes *)

(** The two exception classes [ensure_allowed_redirect_uri] catches around the
    URL parse. *)
Inductive url_error := AssertionError | ValueError.

Inductive exn :=
| InvalidReturnToURL
| InvalidTelegramWidgetHash
| UserWithoutSessionException
| KeyError (key : string)
| InvalidId
| OAuthError
| AttributeError
| UrlError (e : url_error).

Inductive Outcome (A : Type) :=
| Return (a : A)
| Raise (e : exn).
Arguments Return {A} a.
Arguments Raise {A} e.

(** A computation over a state [S] that may raise: the state survives a raise. *)
Definition M (S A : Type) : Type := S -> S * Outcome A.

Definition raise {S A} (e : exn) : M S A := fun s => (s, Raise e).
Definition lift {S A} (o : Outcome A) : M S A := fun s => (s, o).
(** Reading the state, and changing it. *)
Definition gets {S A} (f : S -> A) : M S A := fun s => (s, Return (f s)).
Definition modify {S} (f : S -> S) : M S unit := fun s => (f s, Return tt).

#[export] Instance M_ret {S} : MRet (M S) := fun A a s => (s, Return a).
#[export] Instance M_bind {S} : MBind (M S) := fun A B k m s =>
  match m s with
  | (s', Return a) => k a s'
  | (s', Raise e) => (s', Raise e)
  end.

(** ** Values shared by the routes *)

Abbreviation Session := (gmap string string).

(** [if x:] on a value that is [None] or a string. *)
Definition truthy (x : option string) : bool :=
  match x with
  | Some s => negb (String.eqb s "")
  | None => false
  end.

(** The part of [settings] the routes read: [settings.web_url],
    [settings.auth.allowed_domains], [settings.telegram.bot_token] and
    [settings.innopolis_sso.redirect_uri]. *)
Class Settings := {
  web_url : string;
  allowed_domains : list string;
  bot_token : string;
  sso_redirect_uri : string
}.

(** starlette's [URL]: the address without its query, and the query items. *)
Record URL := {
  url_base : string;
  url_query : list (string * string)
}.

(** [URL.include_query_params]: the keyword arguments replace the items of the
    same key and come last. *)
Definition include_query_params (u : URL) (kwargs : list (string * string)) : URL :=
  {| url_base := url_base u;
     url_query :=
       filter (fun kv => kv.1 ∉ kwargs.*1) (url_query u) ++ kwargs |}.

(** What a [RedirectResponse] is given: a [str] or a [URL]. *)
Inductive Location :=
| LocStr (s : string)
| LocURL (u : URL).

Inductive Response :=
| RedirectResponse (url : Location) (status_code : Z)
| JSONResponse (status_code : Z) (content : list (string * option string)).

(** [request.query_params], by key, with [.get]. *)
Record Request := {
  query_params : gmap string string
}.

(** ** Collaborators outside these four files

    Libraries (starlette, hashlib and hmac, bson, authlib) and the repository's
    own storage modules are interfaces here; the routes are written against
    them. *)

(** starlette: [URL(s).hostname] is the host, [None] when the address has none,
    or the exception the parse raised; [request.url_for(name)]. *)
Class UrlLib := {
  URL_hostname : string -> url_error + option string;
  url_for : Request -> string -> URL
}.

(** [hashlib.sha256(b).digest()] and [hmac.new(key, msg, hashlib.sha256).hexdigest()]. *)
Class Crypto := {
  sha256_digest : list Byte.byte -> list Byte.byte;
  hmac_sha256_hexdigest : list Byte.byte -> list Byte.byte -> string
}.

(** bson's identifiers: [PydanticObjectId(s)] ([None]: it raises [InvalidId])
    and [str(oid)]. *)
Class Bson := {
  ObjectId : Type;
  PydanticObjectId : string -> option ObjectId;
  str_of_oid : ObjectId -> string
}.

(** A stored user, with the one field the routes read ([user.id]). *)
Record User `{Bson} := {
  User_id : ObjectId
}.

(** [user_repository]: the calls the routes make, over the stored users.
    [user_exists] is the truth value of what the call
    [user_repository.exists(uid)] hands to [_get_optional_uid_from_session],
    which tests it as it is.  That call is not awaited, the only repository
    call in these files that is not: where [exists] is a coroutine function,
    as the other calls are, what is tested is a coroutine object, and that is
    truthy whatever the repository holds. *)
Class UserRepository `{Bson} := {
  UserRepo : Type;
  UserInfoFromSSO : Type;
  user_exists : UserRepo -> ObjectId -> bool;
  read_by_telegram_id : UserRepo -> Z -> option User;
  register_or_update_via_innopolis_sso : UserRepo -> UserInfoFromSSO -> UserRepo * User
}.

(** authlib's client, which keeps its own state in the session:
    [authorize_redirect] (given the request, the callback address and the
    prompt), [authorize_access_token] (a token, or a raise, [OAuthError] among
    them), and [UserInfoFromSSO.from_token_and_userinfo(token, token["userinfo"])]. *)
Class OAuthClient `{UserRepository} := {
  Token : Type;
  authorize_redirect : Request -> string -> option string -> M Session Response;
  authorize_access_token : Request -> M Session Token;
  from_token_and_userinfo : Token -> UserInfoFromSSO
}.

(** ** The state a handler runs in *)

Record World `{UserRepository} := {
  session : Session;
  users : UserRepo
}.

Section State.
Context `{UserRepository}.

Definition with_session (f : Session -> Session) (w : World) : World :=
  {| session := f (session w); users := users w |}.

(** [request.session.get(key)] *)
Definition session_get (key : string) : M World (option string) :=
  gets (fun w => session w !! key).

(** [request.session.pop(key)], with no default: [KeyError] on a missing key. *)
Definition session_pop (key : string) : M World string :=
  fun w => match session w !! key with
           | Some v => (with_session (delete key) w, Return v)
           | None => (w, Raise (KeyError key))
           end.

(** [request.session.clear()] *)
Definition session_clear : M World unit :=
  modify (with_session (fun _ => ∅)).

(** [request.session[key] = value] *)
Definition session_set (key value : string) : M World unit :=
  modify (with_session (insert key value)).

(** A call of the OAuth client, which sees the session only. *)
Definition on_session {A} (m : M Session A) : M World A :=
  fun w => match m (session w) with
           | (s', o) => (with_session (fun _ => s') w, o)
           end.
End State.

(** ** src/api/dependencies.py *)

Section Dependencies.
Context `{UserRepository}.

Definition _get_optional_uid_from_session : M World (option ObjectId) :=
  uid ← session_get "uid";
  match uid with
  | None => mret None
  | Some uid =>
      uid ← lift (match PydanticObjectId uid with
                  | Some oid => Return oid
                  | None => Raise InvalidId
                  end);
      exists_ ← gets (fun w => user_exists (users w) uid);
      if negb exists_
      then session_clear;; raise UserWithoutSessionException
      else mret (Some uid)
  end.

Definition _get_uid_from_session : M World ObjectId :=
  uid ← _get_optional_uid_from_session;
  match uid with
  | None => raise UserWithoutSessionException
  | Some uid => mret uid
  end.
End Dependencies.

(** ** src/modules/providers/innopolis/routes.py *)

Section Innopolis.
Context `{Settings} `{UrlLib} `{OAuthClient}.

(** The [try] block of [ensure_allowed_redirect_uri]: [Return true] stands for
    its two [return]s, [Return false] for falling out of it. *)
Definition guard_try (return_to : string) : Outcome bool :=
  match URL_hostname return_to with
  | inl e => Raise (UrlError e)
  | inr None => Return true
  | inr (Some hostname) =>
      if bool_decide (hostname ∈ allowed_domains)
      then Return true
      else Return false
  end.

Definition ensure_allowed_redirect_uri (return_to : string) : Outcome unit :=
  match guard_try return_to with
  | Return true => Return tt
  | Return false => Raise InvalidReturnToURL
  | Raise (UrlError _) => Raise InvalidReturnToURL
  | Raise e => Raise e
  end.

(** [prompt] is [Literal["none"] | None]: [Some tt] stands for ["none"]. *)
Definition innopolis_login_or_register
    (redirect_uri : string) (request : Request) (prompt : option unit) : M World Response :=
  lift (ensure_allowed_redirect_uri redirect_uri);;
  session_clear;;
  session_set "redirect_uri" redirect_uri;;
  match prompt with
  | Some _ =>
      session_set "prompt" "none";;
      on_session (authorize_redirect request sso_redirect_uri (Some "none"))
  | None =>
      on_session (authorize_redirect request sso_redirect_uri None)
  end.

Definition recover_mismatching_state (request : Request) : M World Response :=
  redirect_uri ← session_get "redirect_uri";
  user_id ← session_get "uid";
  match user_id with
  | Some _ =>
      if truthy redirect_uri then
        let redirect_uri := default "" redirect_uri in
        lift (ensure_allowed_redirect_uri redirect_uri);;
        mret (RedirectResponse (LocStr redirect_uri) 302)
      else
        mret (RedirectResponse (LocStr web_url) 302)
  | None =>
      if truthy redirect_uri then
        let redirect_uri := default "" redirect_uri in
        lift (ensure_allowed_redirect_uri redirect_uri);;
        let url := include_query_params
                     (url_for request "innopolis_login_or_register")
                     [("redirect_uri", redirect_uri)] in
        mret (RedirectResponse (LocURL url) 302)
      else
        mret (RedirectResponse (LocStr web_url) 302)
  end.

(** The callback after a token arrived (the lines below the [try]). *)
Definition callback_with_token (token : Token) : M World Response :=
  let user_info := from_token_and_userinfo token in
  user ← (fun w => match register_or_update_via_innopolis_sso (users w) user_info with
                   | (users', user) => ({| session := session w; users := users' |}, Return user)
                   end);
  redirect_uri ← session_pop "redirect_uri";
  lift (ensure_allowed_redirect_uri redirect_uri);;
  session_clear;;
  session_set "uid" (str_of_oid (User_id user));;
  mret (RedirectResponse (LocStr redirect_uri) 302).

Definition innopolis_callback (request : Request) : M World Response :=
  let error := query_params request !! "error" in
  if truthy error then
    let description := query_params request !! "error_description" in
    prompt ← session_get "prompt";
    if bool_decide (prompt = Some "none") then
      redirect_uri ← session_pop "redirect_uri";
      lift (ensure_allowed_redirect_uri redirect_uri);;
      session_clear;;
      mret (RedirectResponse (LocStr redirect_uri) 302)
    else
      mret (JSONResponse 403 [("error", error); ("description", description)])
  else
    fun w =>
      match on_session (authorize_access_token request) w with
      | (w', Return token) => callback_with_token token w'
      | (w', Raise OAuthError) => recover_mismatching_state request w'
      | (w', Raise e) => (w', Raise e)
      end.
End Innopolis.

(** ** src/modules/providers/telegram/routes.py *)

(** The widget payload, with the fields the routes read; [encoded] is the
    schema's derived byte form of the signed fields. *)
Record TelegramWidgetData := {
  tg_id : Z;
  auth_date : Z;
  hash : string;
  encoded : list Byte.byte
}.

Record TelegramLoginResponse := {
  need_to_connect : bool
}.

(** [x < y] on numbers. *)
Definition Qltb (x y : Q) : bool := negb (Qle_bool y x).

(** *** Binary64 arithmetic

    A Python [float] is a binary64 number, here the rational it stands for, and
    a sum or difference of two is the exact result rounded to the nearest
    binary64 number, ties to the even significand. *)

(** The nearest integer, ties to even. *)
Definition rne (q : Q) : Z :=
  let f := Qfloor q in
  match Qcompare (q - inject_Z f) (1 # 2) with
  | Lt => f
  | Gt => f + 1
  | Eq => if Z.even f then f else f + 1
  end.

(** For a positive [q], the exponent [k] with [2^k <= q < 2^(k+1)]. *)
Definition floor_log2 (q : Q) : Z :=
  let a := Z.log2 (Qnum q) - Z.log2 (Zpos (Qden q)) in
  if Qle_bool (Qpower 2 a) q then a else a - 1.

(** A positive [q] on the grid of its binade: 53 bits of significand, and no
    exponent below -1074. *)
Definition round_pos (q : Q) : Q :=
  let e := Z.max (floor_log2 q - 52) (-1074) in
  (inject_Z (rne (q / Qpower 2 e)) * Qpower 2 e)%Q.

(** The binary64 number nearest to [q].  Overflow to infinity is left out: a
    binary64 number plus or minus 300 is never beyond the largest one. *)
Definition binary64 (q : Q) : Q :=
  match Qcompare q 0 with
  | Eq => 0%Q
  | Gt => round_pos q
  | Lt => (- round_pos (- q))%Q
  end.

Section Telegram.
Context `{Settings} `{Crypto} `{UserRepository}.

Definition _get_secret_key : list Byte.byte :=
  sha256_digest (list_byte_of_string bot_token).

(** [now] is the float [aware_utcnow().timestamp()] returned, in seconds;
    [_now - 5 * 60] and [_now + 5 * 60] are float operations; [auth_date] is an
    integer, and Python compares a float with an integer exactly. *)
Definition validate_widget_hash (now : Q) (telegram_data : TelegramWidgetData) : bool :=
  let received_hash := hash telegram_data in
  let encoded_telegarm_data := encoded telegram_data in
  let evaluated_hash := hmac_sha256_hexdigest _get_secret_key encoded_telegarm_data in
  if Qltb (binary64 (now - 5 * 60)) (inject_Z (auth_date telegram_data))
     && Qltb (inject_Z (auth_date telegram_data)) (binary64 (now + 5 * 60))
  then String.eqb evaluated_hash received_hash
  else false.

(** [user_id] is the resolved [OptionalUserIdDep]. *)
Definition telegram_login
    (now : Q) (telegram_data : TelegramWidgetData) (user_id : option ObjectId)
  : M World TelegramLoginResponse :=
  if negb (validate_widget_hash now telegram_data)
  then raise InvalidTelegramWidgetHash
  else
    user_by_telegram_id ← gets (fun w => read_by_telegram_id (users w) (tg_id telegram_data));
    if bool_decide (user_by_telegram_id = None) && bool_decide (user_id ≠ None)
    then mret {| need_to_connect := true |}
    else
      match user_by_telegram_id with
      | None => raise UserWithoutSessionException
      | Some user =>
          session_clear;;
          session_set "uid" (str_of_oid (User_id user));;
          mret {| need_to_connect := false |}
      end.

(** The request as the framework runs it: the dependency, then the handler. *)
Definition telegram_login_request
    (now : Q) (telegram_data : TelegramWidgetData) : M World TelegramLoginResponse :=
  user_id ← _get_optional_uid_from_session;
  telegram_login now telegram_data user_id.
End Telegram.

(** ** src/modules/providers/email/routes.py *)

(** The status enumeration of the email flow repository, of which the route
    names [SUCCESS]. *)
Class FlowStatus := {
  EmailFlowVerificationStatus : Type;
  SUCCESS : EmailFlowVerificationStatus;
  status_eq_dec :: EqDecision EmailFlowVerificationStatus
}.

(** A stored flow, with the fields the route reads. *)
Record EmailFlow `{Bson} := {
  EmailFlow_id : ObjectId;
  EmailFlow_email : string
}.

(** What [verify_flow] returns: the status and the flow, [None] when it found
    none (reading a field of [None] raises [AttributeError]). *)
Record EmailFlowVerificationResult `{Bson} `{FlowStatus} := {
  vr_status : EmailFlowVerificationStatus;
  vr_email_flow : option EmailFlow
}.

Record EmailFlowResult `{FlowStatus} := {
  status : EmailFlowVerificationStatus;
  email : option string;
  email_verification_token : option string
}.

(** [email_flow_repository.verify_flow] over the stored flows, and
    [TokenRepository.create_email_flow_token]. *)
Class EmailFlowRepository `{Bson} `{FlowStatus} := {
  FlowStore : Type;
  verify_flow :
    ObjectId -> string -> option ObjectId -> option ObjectId ->
    M FlowStore EmailFlowVerificationResult;
  create_email_flow_token : ObjectId -> string
}.

Section Email.
Context `{EmailFlowRepository}.

Definition _validate_code_route
    (email_flow_id : ObjectId) (verification_code : string)
    (user_id client_id : option ObjectId) : M FlowStore EmailFlowResult :=
  verification_result ← verify_flow email_flow_id verification_code user_id client_id;
  if bool_decide (vr_status verification_result = SUCCESS)
  then
    email_flow ← lift (match vr_email_flow verification_result with
                       | Some email_flow => Return email_flow
                       | None => Raise AttributeError
                       end);
    mret {| status := vr_status verification_result;
            email := Some (EmailFlow_email email_flow);
            email_verification_token :=
              Some (create_email_flow_token (EmailFlow_id email_flow)) |}
  else mret {| status := vr_status verification_result;
               email := None;
               email_verification_token := None |}.

(** [user_id] is the resolved [UserIdDep]. *)
Definition end_email_flow
    (email_flow_id : ObjectId) (verification_code : string) (user_id : ObjectId)
  : M FlowStore EmailFlowResult :=
  _validate_code_route email_flow_id verification_code (Some user_id) None.
End Email.

(** ** A sample deployment

    Concrete collaborators on which the routes run: a reader of addresses in
    the manner of [urllib.parse.urlsplit], stand-ins for the digests (not
    cryptographic), identifiers as their 24-character text, a user table, and
    an OAuth client that keeps its state under a session key. *)

Definition callback_address : string := "https://api.innohassle.ru/auth/innopolis/callback".

Definition sample_settings : Settings := {|
  web_url := "https://innohassle.ru";
  allowed_domains := ["innohassle.ru"; "api.innohassle.ru"];
  bot_token := "4242:sample-bot-token";
  sso_redirect_uri := callback_address
|}.

Definition is_alpha (c : ascii) : bool :=
  let n := nat_of_ascii c in
  ((65 <=? n) && (n <=? 90) || (97 <=? n) && (n <=? 122))%nat.

Definition is_scheme_char (c : ascii) : bool :=
  let n := nat_of_ascii c in
  (is_alpha c || (48 <=? n) && (n <=? 57) || (n =? 43) || (n =? 45) || (n =? 46))%nat.

Definition lower (c : ascii) : ascii :=
  let n := nat_of_ascii c in
  if ((65 <=? n) && (n <=? 90))%nat then ascii_of_nat (n + 32) else c.

(** The characters before the first one satisfying [p], and the rest from it on. *)
Fixpoint break_at (p : ascii -> bool) (l : list ascii) : list ascii * list ascii :=
  match l with
  | [] => ([], [])
  | c :: l' =>
      if p c then ([], l)
      else let '(a, b) := break_at p l' in (c :: a, b)
  end.

(** What follows the last [sep], or all of [l] when there is none. *)
Definition after_last (sep : ascii) (l : list ascii) : list ascii :=
  rev (fst (break_at (Ascii.eqb sep) (rev l))).

Definition sample_hostname (s : string) : url_error + option string :=
  let url := list_ascii_of_string s in
  let '(pre, rest) := break_at (Ascii.eqb ":") url in
  let url :=
    match pre, rest with
    | c :: _, _ :: rest' =>
        if is_alpha c && forallb is_scheme_char pre then rest' else url
    | _, _ => url
    end in
  match url with
  | "/"%char :: "/"%char :: after =>
      let netloc := fst (break_at (fun c => existsb (Ascii.eqb c) ["/"; "?"; "#"]%char) after) in
      if xorb (existsb (Ascii.eqb "[") netloc) (existsb (Ascii.eqb "]") netloc)
      then inl ValueError
      else
        let hostinfo := after_last "@" netloc in
        let host :=
          if existsb (Ascii.eqb "[") hostinfo
          then fst (break_at (Ascii.eqb "]") (tail (snd (break_at (Ascii.eqb "[") hostinfo))))
          else fst (break_at (Ascii.eqb ":") hostinfo) in
        match host with
        | [] => inr None
        | _ => inr (Some (string_of_list_ascii (map lower host)))
        end
  | _ => inr None
  end.

Definition sample_url_for (request : Request) (name : string) : URL :=
  {| url_base := "https://api.innohassle.ru/auth/innopolis/login"; url_query := [] |}.

Definition sample_urllib : UrlLib := {|
  URL_hostname := sample_hostname;
  url_for := sample_url_for
|}.

Definition sample_crypto : Crypto := {|
  sha256_digest := fun b => rev b;
  hmac_sha256_hexdigest := fun key msg => string_of_list_byte (key ++ msg)%list
|}.

Definition sample_bson : Bson := {|
  ObjectId := string;
  PydanticObjectId := fun s => if (String.length s =? 24)%nat then Some s else None;
  str_of_oid := fun oid => oid
|}.

(** The user table: identifier and linked telegram id. *)
Definition sample_users : Type := list (string * option Z).

Definition sample_exists (repo : sample_users) (oid : string) : bool :=
  existsb (fun u => String.eqb (fst u) oid) repo.

Definition sample_read_by_telegram_id (repo : sample_users) (tid : Z) : option (@User sample_bson) :=
  match filter (fun u => snd u = Some tid) repo with
  | u :: _ => Some (Build_User sample_bson (fst u))
  | [] => None
  end.

(** The user info is the identifier the provider asserts. *)
Definition sample_register (repo : sample_users) (oid : string) : sample_users * @User sample_bson :=
  if sample_exists repo oid
  then (repo, Build_User sample_bson oid)
  else ((repo ++ [(oid, None)])%list, Build_User sample_bson oid).

Definition sample_repository : @UserRepository sample_bson :=
  @Build_UserRepository sample_bson sample_users string
    sample_exists sample_read_by_telegram_id sample_register.

(** The OAuth client: the state it issued is a session key, consumed by the
    callback that presents it; any other callback is a state mismatch. *)
Definition sample_authorize_redirect
    (request : Request) (target : string) (prompt : option string) : M Session Response :=
  fun s =>
    (<["_state_innopolis_s1" := target]> s,
     Return (RedirectResponse
               (LocStr "https://sso.university.innopolis.ru/adfs/oauth2/authorize") 302)).

Definition sample_authorize_access_token (request : Request) : M Session string :=
  fun s =>
    match query_params request !! "state" with
    | Some st =>
        match s !! ("_state_innopolis_" ++ st) with
        | Some _ =>
            (delete ("_state_innopolis_" ++ st) s,
             Return (default "" (query_params request !! "code")))
        | None => (s, Raise OAuthError)
        end
    | None => (s, Raise OAuthError)
    end.

Definition sample_oauth : @OAuthClient sample_bson sample_repository :=
  @Build_OAuthClient sample_bson sample_repository string
    sample_authorize_redirect sample_authorize_access_token (fun token => token).

Inductive sample_status := success | incorrect | expired | not_found.

#[export] Instance sample_status_eq_dec : EqDecision sample_status.
Proof. solve_decision. Defined.

Definition sample_flow_status : FlowStatus := {|
  EmailFlowVerificationStatus := sample_status;
  SUCCESS := success
|}.

(** The flow table: identifier, address, code, and whether the flow expired. *)
Definition sample_store : Type := list (string * string * string * bool).

Definition sample_verify_flow
    (fid code : string) (user client : option string)
  : M sample_store (@EmailFlowVerificationResult sample_bson sample_flow_status) :=
  fun store =>
    match filter (fun f => fst (fst (fst f)) = fid) store with
    | (i, e, c, old) :: _ =>
        (store,
         Return (Build_EmailFlowVerificationResult sample_bson sample_flow_status
                   (if (old : bool) then expired
                    else if String.eqb c code then success else incorrect)
                   (Some (Build_EmailFlow sample_bson i e))))
    | [] =>
        (store,
         Return (Build_EmailFlowVerificationResult sample_bson sample_flow_status
                   not_found None))
    end.

Definition sample_flows : @EmailFlowRepository sample_bson sample_flow_status :=
  @Build_EmailFlowRepository sample_bson sample_flow_status sample_store
    sample_verify_flow (fun fid : string => "token-for-" ++ fid).

Definition sample_world (s : Session) (u : sample_users) : @World sample_bson sample_repository :=
  Build_World sample_bson sample_repository s u.

(** Two users, the first with telegram id 777 linked. *)
Definition alice : string := "aaaaaaaaaaaaaaaaaaaaaaaa".
Definition bob : string := "bbbbbbbbbbbbbbbbbbbbbbbb".
Definition carol : string := "cccccccccccccccccccccccc".
Definition two_users : sample_users := [(alice, Some 777); (bob, None)].

(** A payload signed with the sample bot token. *)
Definition sample_signed (id date : Z) (fields : string) : TelegramWidgetData :=
  {| tg_id := id;
     auth_date := date;
     hash := @hmac_sha256_hexdigest sample_crypto
               (@_get_secret_key sample_settings sample_crypto)
               (list_byte_of_string fields);
     encoded := list_byte_of_string fields |}.

Definition payload_777 : TelegramWidgetData :=
  sample_signed 777 1700000000 "auth_date=1700000000 id=777".
Definition payload_888 : TelegramWidgetData :=
  sample_signed 888 1700000000 "auth_date=1700000000 id=888".

(** A payload dated 2^33 seconds, and the float that Python reads
    [8589934292.000001] as: 8589934292 + 2^-20. *)
Definition payload_2242 : TelegramWidgetData :=
  sample_signed 889 8589934592 "auth_date=8589934592 id=889".
Definition clock_2242 : Q := binary64 (8589934292000001 # 1000000).

(** The sample repository as the program runs it: [exists] is a coroutine
    function, the object its call returns is truthy, and the user table is not
    asked. *)
Definition running_repository : @UserRepository sample_bson :=
  @Build_UserRepository sample_bson sample_users string
    (fun _ _ => true) sample_read_by_telegram_id sample_register.

Definition running_world (s : Session) (u : sample_users)
  : @World sample_bson running_repository :=
  Build_World sample_bson running_repository s u.

(** A callback with no query parameters, one reporting a provider error, and
    one presenting the state "s1" with a code. *)
Definition bare_request : Request := {| query_params := ∅ |}.
Definition error_request : Request :=
  {| query_params := {["error" := "login_required"; "error_description" := "no session"]} |}.
Definition code_request : Request :=
  {| query_params := {["state" := "s1"; "code" := carol]} |}.

(** Sessions: after the login route issued the redirect (with and without the
    silent prompt), and with an address outside the allow-list stored. *)
Definition issued_session : Session :=
  {["redirect_uri" := "/dashboard"; "_state_innopolis_s1" := callback_address]}.
Definition silent_session : Session :=
  {["redirect_uri" := "/dashboard"; "prompt" := "none";
    "_state_innopolis_s1" := callback_address]}.
Definition foreign_session : Session :=
  {["redirect_uri" := "https://evil.example/"; "prompt" := "none"]}.

(** The flow table: one open flow and one expired. *)
Definition two_flows : sample_store :=
  [("f1", "a@b.com", "123456", false); ("f2", "c@d.com", "654321", true)].

(** ** src/modules/providers/telegram/routes.py: the connect route *)

(** [user_repository.update_telegram(user_id, telegram_data)], over the stored
    users. *)
Class UserRepositoryWrites `{UserRepository} := {
  update_telegram : ObjectId -> TelegramWidgetData -> M UserRepo unit
}.

Section Connect.
Context `{Settings} `{Crypto} `{UserRepositoryWrites}.

(** A call of the user repository, which sees the users only. *)
Definition on_users {A} (m : M UserRepo A) : M World A :=
  fun w => match m (users w) with
           | (users', o) => ({| session := session w; users := users' |}, o)
           end.

(** [user_id] is the resolved [UserIdDep]. *)
Definition telegram_connect
    (now : Q) (telegram_data : TelegramWidgetData) (user_id : ObjectId) : M World unit :=
  if negb (validate_widget_hash now telegram_data)
  then raise InvalidTelegramWidgetHash
  else on_users (update_telegram user_id telegram_data).

(** The request as the framework runs it: the dependency, then the handler. *)
Definition telegram_connect_request
    (now : Q) (telegram_data : TelegramWidgetData) : M World unit :=
  user_id ← _get_uid_from_session;
  telegram_connect now telegram_data user_id.
End Connect.

(** The sample user table links the telegram id to the user named. *)
Definition sample_update_telegram (oid : string) (telegram_data : TelegramWidgetData)
  : M sample_users unit :=
  fun repo =>
    (map (fun u : string * option Z =>
            if String.eqb (fst u) oid then (fst u, Some (tg_id telegram_data)) else u)
         repo,
     Return tt).

Definition sample_writes : @UserRepositoryWrites sample_bson sample_repository :=
  @Build_UserRepositoryWrites sample_bson sample_repository sample_update_telegram.

(** The sample settings with a shorter allow-list. *)
Definition narrow_settings : Settings := {|
  web_url := "https://innohassle.ru";
  allowed_domains := ["innohassle.ru"];
  bot_token := "4242:sample-bot-token";
  sso_redirect_uri := callback_address
|}.

(** * Properties *)

(** ** The monad *)

Lemma bind_Return {S A B} (m : M S A) (k : A -> M S B) s s' a :
  m s = (s', Return a) -> (m ≫= k) s = k a s'.
Proof. intros Hm. unfold mbind, M_bind. now rewrite Hm. Qed.

Lemma bind_Raise {S A B} (m : M S A) (k : A -> M S B) s s' e :
  m s = (s', Raise e) -> (m ≫= k) s = (s', Raise e).
Proof. intros Hm. unfold mbind, M_bind. now rewrite Hm. Qed.

Lemma truthy_Some (x : option string) :
  truthy x = true <-> exists s, x = Some s /\ s <> "".
Proof.
  destruct x as [s|]; simpl.
  - rewrite negb_true_iff, String.eqb_neq. split.
    + intros Hs. now exists s.
    + intros (s' & [= <-] & Hs). exact Hs.
  - split; [discriminate | intros (s & Hs & _); discriminate].
Qed.

Lemma truthy_false (x : option string) :
  truthy x = false <-> x = None \/ x = Some "".
Proof.
  destruct x as [s|]; simpl.
  - rewrite negb_false_iff, String.eqb_eq. split.
    + intros ->. now right.
    + intros [Hs | [= ->]]; [discriminate | reflexivity].
  - split; [now left | reflexivity].
Qed.

(** Unfolding the operations of a handler down to functions on the state. *)
Ltac run_py :=
  unfold session_get, session_pop, session_clear, session_set, on_session,
         gets, modify, lift, raise;
  unfold mbind, M_bind, mret, M_ret; simpl.

(** ** Redirect guard *)

Section GuardProperties.
Context `{Settings} `{UrlLib}.

(** The guard has two outcomes only. *)
Lemma ensure_allowed_redirect_uri_total (return_to : string) :
  ensure_allowed_redirect_uri return_to = Return tt \/
  ensure_allowed_redirect_uri return_to = Raise InvalidReturnToURL.
Proof.
  unfold ensure_allowed_redirect_uri, guard_try.
  destruct (URL_hostname return_to) as [e | [hostname|]]; simpl; auto.
  case_bool_decide; auto.
Qed.

Lemma ensure_allowed_redirect_uri_accepts (return_to : string) :
  ensure_allowed_redirect_uri return_to = Return tt <->
  URL_hostname return_to = inr None \/
  exists hostname, URL_hostname return_to = inr (Some hostname) /\ hostname ∈ allowed_domains.
Proof.
  unfold ensure_allowed_redirect_uri, guard_try.
  destruct (URL_hostname return_to) as [e | [hostname|]]; simpl.
  - split; [discriminate | intros [? | (? & ? & _)]; discriminate].
  - case_bool_decide as Hin; split; try discriminate; eauto.
    intros [? | (h & [= <-] & Hh)]; [discriminate | contradiction].
  - split; auto.
Qed.

(** C2: the Redirect Guard returns without error when the parsed address has
    no host and when its host is in the allow-list; with a host outside the
    allow-list, and on input that fails to parse, it raises
    [InvalidReturnToURL]. *)
Theorem ensure_allowed_redirect_uri_cases (candidate_url : string) :
  (URL_hostname candidate_url = inr None ->
     ensure_allowed_redirect_uri candidate_url = Return tt) /\
  (forall hostname,
     URL_hostname candidate_url = inr (Some hostname) ->
     hostname ∈ allowed_domains ->
     ensure_allowed_redirect_uri candidate_url = Return tt) /\
  (forall hostname,
     URL_hostname candidate_url = inr (Some hostname) ->
     hostname ∉ allowed_domains ->
     ensure_allowed_redirect_uri candidate_url = Raise InvalidReturnToURL) /\
  (forall e,
     URL_hostname candidate_url = inl e ->
     ensure_allowed_redirect_uri candidate_url = Raise InvalidReturnToURL).
Proof.
  unfold ensure_allowed_redirect_uri, guard_try.
  repeat split.
  - intros ->. reflexivity.
  - intros hostname -> Hin. now rewrite bool_decide_eq_true_2.
  - intros hostname -> Hout. now rewrite bool_decide_eq_false_2.
  - intros e ->. reflexivity.
Qed.
End GuardProperties.

(** ** State-mismatch recovery *)

(** A query built with one keyword carries that key once, with the value given. *)
Lemma include_query_params_carries (u : URL) (key value : string) :
  url_base (include_query_params u [(key, value)]) = url_base u /\
  forall v, (key, v) ∈ url_query (include_query_params u [(key, value)]) <-> v = value.
Proof.
  split; [reflexivity |].
  intros v. unfold include_query_params. simpl. split.
  - intros Hin. apply elem_of_app in Hin as [Hin | Hin].
    + apply list_elem_of_filter in Hin as [Hkey _]. simpl in Hkey.
      exfalso. apply Hkey. now apply list_elem_of_singleton.
    + apply list_elem_of_singleton in Hin. congruence.
  - intros ->. apply elem_of_app. right. now apply list_elem_of_singleton.
Qed.

Section RecoveryProperties.
Context `{Settings} `{UrlLib} `{UserRepository}.

(** The recovery reads the session and leaves the state as it was. *)
Lemma recover_mismatching_state_reads (request : Request) (w : World) :
  fst (recover_mismatching_state request w) = w.
Proof.
  unfold recover_mismatching_state. run_py.
  destruct (session w !! "uid"), (truthy (session w !! "redirect_uri")); simpl;
    try reflexivity;
    destruct (ensure_allowed_redirect_uri _); reflexivity.
Qed.

(** C4, amended: the recovery is decided by the session.  A redirect_uri is
    known when one is stored and is not the empty string.  (a) uid set and a
    known redirect_uri that passes the Redirect Guard: redirect to it; (b) uid
    set and no known redirect_uri: redirect to the default landing page; (c) no
    uid and a known redirect_uri that passes the Redirect Guard: redirect to
    the login entry point with redirect_uri as its query parameter; (d) neither:
    redirect to the default landing page.  Each redirect has status 302 and the
    state is left as it was. *)
Theorem recover_mismatching_state_cases (request : Request) (w : World) :
  (forall uid uri,
     session w !! "uid" = Some uid ->
     session w !! "redirect_uri" = Some uri -> uri <> "" ->
     ensure_allowed_redirect_uri uri = Return tt ->
     recover_mismatching_state request w =
       (w, Return (RedirectResponse (LocStr uri) 302))) /\
  (forall uid,
     session w !! "uid" = Some uid ->
     truthy (session w !! "redirect_uri") = false ->
     recover_mismatching_state request w =
       (w, Return (RedirectResponse (LocStr web_url) 302))) /\
  (forall uri,
     session w !! "uid" = None ->
     session w !! "redirect_uri" = Some uri -> uri <> "" ->
     ensure_allowed_redirect_uri uri = Return tt ->
     exists url,
       recover_mismatching_state request w =
         (w, Return (RedirectResponse (LocURL url) 302)) /\
       url_base url = url_base (url_for request "innopolis_login_or_register") /\
       forall v, ("redirect_uri", v) ∈ url_query url <-> v = uri) /\
  (session w !! "uid" = None ->
   truthy (session w !! "redirect_uri") = false ->
   recover_mismatching_state request w =
     (w, Return (RedirectResponse (LocStr web_url) 302))).
Proof.
  unfold recover_mismatching_state. run_py.
  repeat split.
  - intros uid uri -> Huri Hne Hok. rewrite Huri. simpl.
    apply String.eqb_neq in Hne. rewrite Hne. simpl. now rewrite Hok.
  - intros uid -> ->. reflexivity.
  - intros uri -> Huri Hne Hok. rewrite Huri. simpl.
    apply String.eqb_neq in Hne. rewrite Hne. simpl. rewrite Hok.
    eexists. split; [reflexivity |].
    apply include_query_params_carries.
  - intros -> ->. reflexivity.
Qed.

(** C5, amended: the recovery returns a redirect (status 302), with the state
    left as it was, for every session whose stored redirect_uri is absent,
    empty, or passes the Redirect Guard; for a session whose stored
    redirect_uri is not empty and fails the Redirect Guard it raises
    [InvalidReturnToURL].  It has no other outcome. *)
Theorem recover_mismatching_state_outcome (request : Request) (w : World) :
  (truthy (session w !! "redirect_uri") = false \/
   ensure_allowed_redirect_uri (default "" (session w !! "redirect_uri")) = Return tt ->
   exists location,
     recover_mismatching_state request w =
       (w, Return (RedirectResponse location 302))) /\
  (truthy (session w !! "redirect_uri") = true ->
   ensure_allowed_redirect_uri (default "" (session w !! "redirect_uri")) <> Return tt ->
   recover_mismatching_state request w = (w, Raise InvalidReturnToURL)).
Proof.
  unfold recover_mismatching_state. run_py.
  split.
  - intros Hok.
    destruct (session w !! "uid"), (truthy (session w !! "redirect_uri")) eqn:Ht;
      simpl; eauto;
      (destruct Hok as [Hf | Hok]; [discriminate | rewrite Hok; eauto]).
  - intros -> Hbad.
    destruct (ensure_allowed_redirect_uri_total (default "" (session w !! "redirect_uri")))
      as [Hok | Hraise]; [contradiction |].
    rewrite Hraise. now destruct (session w !! "uid").
Qed.
End RecoveryProperties.

(** ** The SSO callback *)

Section CallbackProperties.
Context `{Settings} `{UrlLib} `{OAuthClient}.

(** The callback on its three paths: the provider's explicit error, a token,
    and [OAuthError] from the exchange. *)
Lemma innopolis_callback_error_path (request : Request) :
  truthy (query_params request !! "error") = true ->
  innopolis_callback request =
    (prompt ← session_get "prompt";
     if bool_decide (prompt = Some "none") then
       redirect_uri ← session_pop "redirect_uri";
       lift (ensure_allowed_redirect_uri redirect_uri);;
       session_clear;;
       mret (RedirectResponse (LocStr redirect_uri) 302)
     else
       mret (JSONResponse 403 [("error", query_params request !! "error");
                               ("description", query_params request !! "error_description")])).
Proof. intros Herr. unfold innopolis_callback. now rewrite Herr. Qed.

Lemma innopolis_callback_token_path (request : Request) (w w1 : World) (token : Token) :
  truthy (query_params request !! "error") = false ->
  on_session (authorize_access_token request) w = (w1, Return token) ->
  innopolis_callback request w = callback_with_token token w1.
Proof. intros Herr Hex. unfold innopolis_callback. now rewrite Herr, Hex. Qed.

Lemma innopolis_callback_mismatch_path (request : Request) (w w1 : World) :
  truthy (query_params request !! "error") = false ->
  on_session (authorize_access_token request) w = (w1, Raise OAuthError) ->
  innopolis_callback request w = recover_mismatching_state request w1.
Proof. intros Herr Hex. unfold innopolis_callback. now rewrite Herr, Hex. Qed.

(** What the lines below the exchange do, by the stored redirect_uri. *)
Lemma callback_with_token_run (token : Token) (w : World) :
  let registered := register_or_update_via_innopolis_sso (users w) (from_token_and_userinfo token) in
  let w2 := {| session := session w; users := registered.1 |} in
  callback_with_token token w =
    match session w !! "redirect_uri" with
    | None => (w2, Raise (KeyError "redirect_uri"))
    | Some uri =>
        match ensure_allowed_redirect_uri uri with
        | Return _ =>
            ({| session := {["uid" := str_of_oid (User_id registered.2)]};
                users := registered.1 |},
             Return (RedirectResponse (LocStr uri) 302))
        | Raise e => (with_session (delete "redirect_uri") w2, Raise e)
        end
    end.
Proof.
  unfold callback_with_token. run_py.
  destruct (register_or_update_via_innopolis_sso _ _) as [users' user]. simpl.
  destruct (session w !! "redirect_uri") as [uri|]; simpl; [| reflexivity].
  destruct (ensure_allowed_redirect_uri uri); simpl; [| reflexivity].
  unfold with_session. simpl. now rewrite insert_empty.
Qed.

(** The provider's error with prompt "none", by the stored redirect_uri. *)
Lemma innopolis_callback_silent_run (request : Request) (w : World) :
  truthy (query_params request !! "error") = true ->
  session w !! "prompt" = Some "none" ->
  innopolis_callback request w =
    match session w !! "redirect_uri" with
    | None => (w, Raise (KeyError "redirect_uri"))
    | Some uri =>
        match ensure_allowed_redirect_uri uri with
        | Return _ =>
            ({| session := ∅; users := users w |},
             Return (RedirectResponse (LocStr uri) 302))
        | Raise e => (with_session (delete "redirect_uri") w, Raise e)
        end
    end.
Proof.
  intros Herr Hprompt. rewrite (innopolis_callback_error_path request Herr). run_py.
  rewrite Hprompt. simpl.
  destruct (session w !! "redirect_uri") as [uri|]; simpl; [| reflexivity].
  now destruct (ensure_allowed_redirect_uri uri).
Qed.

(** The provider's error with any other prompt. *)
Lemma innopolis_callback_surfaced_run (request : Request) (w : World) :
  truthy (query_params request !! "error") = true ->
  session w !! "prompt" <> Some "none" ->
  innopolis_callback request w =
    (w, Return (JSONResponse 403
                  [("error", query_params request !! "error");
                   ("description", query_params request !! "error_description")])).
Proof.
  intros Herr Hprompt. rewrite (innopolis_callback_error_path request Herr). run_py.
  now rewrite bool_decide_eq_false_2.
Qed.

(** C7, amended: on a callback carrying a non-empty provider error parameter,
    if the stored prompt equals "none" and the stored redirect_uri passes the
    Redirect Guard, the handler clears the session and redirects (status 302)
    to the stored redirect_uri without surfacing the error; if the stored
    prompt is anything else, it returns the JSON body of error and description
    with status 403 and leaves the session and the users as they were. *)
Theorem innopolis_callback_provider_error (request : Request) (w : World) :
  truthy (query_params request !! "error") = true ->
  (forall uri,
     session w !! "prompt" = Some "none" ->
     session w !! "redirect_uri" = Some uri ->
     ensure_allowed_redirect_uri uri = Return tt ->
     innopolis_callback request w =
       ({| session := ∅; users := users w |},
        Return (RedirectResponse (LocStr uri) 302))) /\
  (session w !! "prompt" <> Some "none" ->
   innopolis_callback request w =
     (w, Return (JSONResponse 403
                   [("error", query_params request !! "error");
                    ("description", query_params request !! "error_description")]))).
Proof.
  intros Herr. split.
  - intros uri Hprompt Huri Hok.
    rewrite (innopolis_callback_silent_run request w Herr Hprompt).
    now rewrite Huri, Hok.
  - apply innopolis_callback_surfaced_run, Herr.
Qed.

(** C10: in the callback, the path of a provider error with prompt "none" and
    the path of a successful exchange both pop redirect_uri with no default:
    when the session lacks that key there, the handler raises
    [KeyError "redirect_uri"] and returns no response. *)
Theorem innopolis_callback_missing_redirect_uri (request : Request) (w : World) :
  (truthy (query_params request !! "error") = true ->
   session w !! "prompt" = Some "none" ->
   session w !! "redirect_uri" = None ->
   innopolis_callback request w = (w, Raise (KeyError "redirect_uri"))) /\
  (forall w1 token,
     truthy (query_params request !! "error") = false ->
     on_session (authorize_access_token request) w = (w1, Return token) ->
     session w1 !! "redirect_uri" = None ->
     snd (innopolis_callback request w) = Raise (KeyError "redirect_uri")).
Proof.
  split.
  - intros Herr Hprompt Huri.
    rewrite (innopolis_callback_silent_run request w Herr Hprompt).
    now rewrite Huri.
  - intros w1 token Herr Hex Huri.
    rewrite (innopolis_callback_token_path request w w1 token Herr Hex).
    rewrite callback_with_token_run. now rewrite Huri.
Qed.

(** C6, amended: when the callback returns on the path of a provider error
    with prompt "none", or on the path of a successful exchange, the session
    it leaves holds neither redirect_uri nor prompt.  The other two paths do
    not touch the session: the JSON body with status 403 leaves the state as
    it was, and the state-mismatch recovery leaves it as the exchange left
    it. *)
Theorem innopolis_callback_transient_keys (request : Request) (w : World) :
  (forall w' response,
     innopolis_callback request w = (w', Return response) ->
     (truthy (query_params request !! "error") = true /\
      session w !! "prompt" = Some "none") \/
     (truthy (query_params request !! "error") = false /\
      exists w1 token, on_session (authorize_access_token request) w = (w1, Return token)) ->
     session w' !! "redirect_uri" = None /\ session w' !! "prompt" = None) /\
  (truthy (query_params request !! "error") = true ->
   session w !! "prompt" <> Some "none" ->
   fst (innopolis_callback request w) = w) /\
  (forall w1,
     truthy (query_params request !! "error") = false ->
     on_session (authorize_access_token request) w = (w1, Raise OAuthError) ->
     fst (innopolis_callback request w) = w1).
Proof.
  split; [| split].
  - intros w' response Hrun [[Herr Hprompt] | (Herr & w1 & token & Hex)].
    + rewrite (innopolis_callback_silent_run request w Herr Hprompt) in Hrun.
      destruct (session w !! "redirect_uri"); [| discriminate].
      destruct (ensure_allowed_redirect_uri _); [| discriminate].
      injection Hrun as <- _. simpl. now rewrite !lookup_empty.
    + rewrite (innopolis_callback_token_path request w w1 token Herr Hex) in Hrun.
      rewrite callback_with_token_run in Hrun.
      destruct (session w1 !! "redirect_uri"); [| discriminate].
      destruct (ensure_allowed_redirect_uri _); [| discriminate].
      injection Hrun as <- _. simpl. now rewrite !lookup_singleton_ne.
  - intros Herr Hprompt.
    now rewrite (innopolis_callback_surfaced_run request w Herr Hprompt).
  - intros w1 Herr Hex.
    rewrite (innopolis_callback_mismatch_path request w w1 Herr Hex).
    apply recover_mismatching_state_reads.
Qed.
End CallbackProperties.

(** ** Session dependencies *)

Section DependencyProperties.
Context `{UserRepository}.

(** The branch for a tested value that is false: the optional and the required
    dependency both clear the whole session and raise
    [UserWithoutSessionException]; and the optional dependency returns [None]
    exactly when the session has no uid key. *)
Lemma stale_uid_clears_session (w : World) :
  (forall uid oid,
     session w !! "uid" = Some uid ->
     PydanticObjectId uid = Some oid ->
     user_exists (users w) oid = false ->
     _get_optional_uid_from_session w =
       ({| session := ∅; users := users w |}, Raise UserWithoutSessionException) /\
     _get_uid_from_session w =
       ({| session := ∅; users := users w |}, Raise UserWithoutSessionException)) /\
  (snd (_get_optional_uid_from_session w) = Return None <->
   session w !! "uid" = None).
Proof.
  split.
  - intros uid oid Huid Hoid Hgone.
    assert (Hopt : _get_optional_uid_from_session w =
                     ({| session := ∅; users := users w |},
                      Raise UserWithoutSessionException)).
    { unfold _get_optional_uid_from_session. run_py.
      rewrite Huid, Hoid. simpl. now rewrite Hgone. }
    split; [exact Hopt |].
    unfold _get_uid_from_session. now rewrite (bind_Raise _ _ _ _ _ Hopt).
  - unfold _get_optional_uid_from_session. run_py.
    destruct (session w !! "uid") as [uid|]; simpl; [| tauto].
    split; [| discriminate].
    destruct (PydanticObjectId uid) as [oid|]; simpl; [| discriminate].
    destruct (user_exists (users w) oid); simpl; discriminate.
Qed.

(** C9 (code bug): [user_repository.exists(uid)] is called without [await],
    so what the dependency tests is a coroutine object, truthy whatever the
    repository holds.  With that, for every session whose uid is well-formed,
    the user gone or not, the optional and the required dependency both return
    the uid and leave the session as it was: the branch that clears the session
    and raises [UserWithoutSessionException] is never taken. *)
Theorem unawaited_exists_returns_stale_uid (w : World) (uid : string) (oid : ObjectId) :
  (forall repo id, user_exists repo id = true) ->
  session w !! "uid" = Some uid ->
  PydanticObjectId uid = Some oid ->
  _get_optional_uid_from_session w = (w, Return (Some oid)) /\
  _get_uid_from_session w = (w, Return oid).
Proof.
  intros Hcoroutine Huid Hoid.
  assert (Hopt : _get_optional_uid_from_session w = (w, Return (Some oid))).
  { unfold _get_optional_uid_from_session. run_py.
    rewrite Huid, Hoid. simpl. now rewrite Hcoroutine. }
  split; [exact Hopt |].
  unfold _get_uid_from_session. now rewrite (bind_Return _ _ _ _ _ Hopt).
Qed.

(** With a uid for which the tested value is true, both dependencies return it
    and leave the state as it was. *)
Lemma live_uid_resolves (w : World) (uid : string) (oid : ObjectId) :
  session w !! "uid" = Some uid ->
  PydanticObjectId uid = Some oid ->
  user_exists (users w) oid = true ->
  _get_optional_uid_from_session w = (w, Return (Some oid)) /\
  _get_uid_from_session w = (w, Return oid).
Proof.
  intros Huid Hoid Hlive.
  assert (Hopt : _get_optional_uid_from_session w = (w, Return (Some oid))).
  { unfold _get_optional_uid_from_session. run_py.
    rewrite Huid, Hoid. simpl. now rewrite Hlive. }
  split; [exact Hopt |].
  unfold _get_uid_from_session. now rewrite (bind_Return _ _ _ _ _ Hopt).
Qed.
End DependencyProperties.

(** ** The widget login *)

Lemma Qltb_lt (x y : Q) : Qltb x y = true <-> (x < y)%Q.
Proof.
  unfold Qltb. rewrite negb_true_iff, <- not_true_iff_false, Qle_bool_iff.
  split; [apply Qnot_le_lt | apply Qlt_not_le].
Qed.

(** ** Binary64 rounding *)

(** Powers of two. *)
Lemma pow2_pos (e : Z) : (0 < Qpower 2 e)%Q.
Proof. apply Qpower_0_lt. reflexivity. Qed.

Lemma pow2_add (a b : Z) : (Qpower 2 (a + b) == Qpower 2 a * Qpower 2 b)%Q.
Proof. apply Qpower_plus. discriminate. Qed.

Lemma pow2_inject (n : Z) : (0 <= n)%Z -> (inject_Z (2 ^ n) == Qpower 2 n)%Q.
Proof. intros Hn. now rewrite Zpower_Qpower. Qed.

Lemma pow2_le (a b : Z) : (a <= b)%Z -> (Qpower 2 a <= Qpower 2 b)%Q.
Proof. intros Hab. apply Qpower_le_compat_l; [exact Hab | discriminate]. Qed.

(** Rounding to the nearest integer is between floor and floor + 1, is
    monotone, and fixes the integers. *)
Lemma rne_bounds (q : Q) : (Qfloor q <= rne q <= Qfloor q + 1)%Z.
Proof.
  unfold rne. destruct (Qcompare _ _); [destruct (Z.even _) | |]; lia.
Qed.

Lemma rne_mono (x y : Q) : (x <= y)%Q -> (rne x <= rne y)%Z.
Proof.
  intros Hxy.
  pose proof (Qfloor_resp_le x y Hxy) as Hfloor.
  destruct (Z.eq_dec (Qfloor x) (Qfloor y)) as [Heq | Hne].
  - unfold rne. rewrite <- Heq.
    destruct (Qcompare_spec (x - inject_Z (Qfloor x)) (1 # 2)) as [Hx | Hx | Hx];
      destruct (Qcompare_spec (y - inject_Z (Qfloor x)) (1 # 2)) as [Hy | Hy | Hy];
      try destruct (Z.even (Qfloor x)); try lia; exfalso; lra.
  - pose proof (rne_bounds x). pose proof (rne_bounds y). lia.
Qed.

Lemma rne_inject_Z (z : Z) : rne (inject_Z z) = z.
Proof.
  unfold rne. rewrite Qfloor_Z.
  destruct (Qcompare_spec (inject_Z z - inject_Z z) (1 # 2)) as [H | H | H];
    [exfalso; lra | reflexivity | exfalso; lra].
Qed.

Lemma rne_eq (q : Q) (z : Z) : (q == inject_Z z)%Q -> rne q = z.
Proof.
  intros Hq. apply Z.le_antisymm.
  - rewrite <- (rne_inject_Z z). apply rne_mono. lra.
  - rewrite <- (rne_inject_Z z) at 1. apply rne_mono. lra.
Qed.

(** The binade of a positive fraction, from the bit lengths of its numerator
    and denominator. *)
Lemma num_den_bounds (n : Z) (d : positive) :
  (0 < n)%Z ->
  (Qpower 2 (Z.log2 n - Z.log2 (Zpos d) - 1) <= n # d)%Q /\
  (n # d < Qpower 2 (Z.log2 n - Z.log2 (Zpos d) + 1))%Q.
Proof.
  intros Hn.
  destruct (Z.log2_spec n Hn) as [Hn1 Hn2].
  destruct (Z.log2_spec (Zpos d) (Pos2Z.is_pos d)) as [Hd1 Hd2].
  pose proof (Z.log2_nonneg n) as Hln.
  pose proof (Z.log2_nonneg (Zpos d)) as Hld.
  remember (Z.log2 n) as ln eqn:Eln. remember (Z.log2 (Zpos d)) as ld eqn:Eld.
  clear Eln Eld.
  assert (HN1 : (Qpower 2 ln <= inject_Z n)%Q).
  { rewrite <- pow2_inject by lia. now rewrite <- Zle_Qle. }
  assert (HN2 : (inject_Z n < Qpower 2 (ln + 1))%Q).
  { rewrite <- pow2_inject by lia. now rewrite <- Zlt_Qlt. }
  assert (HD1 : (Qpower 2 ld <= inject_Z (Zpos d))%Q).
  { rewrite <- pow2_inject by lia. now rewrite <- Zle_Qle. }
  assert (HD2 : (inject_Z (Zpos d) < Qpower 2 (ld + 1))%Q).
  { rewrite <- pow2_inject by lia. now rewrite <- Zlt_Qlt. }
  assert (Hqd : ((n # d) * inject_Z (Zpos d) == inject_Z n)%Q).
  { rewrite Qmake_Qdiv. field. intros H0. discriminate H0. }
  assert (HdP : (0 < inject_Z (Zpos d))%Q) by reflexivity.
  assert (E1 : (Qpower 2 (ln - ld + 1) * Qpower 2 ld == Qpower 2 (ln + 1))%Q).
  { rewrite <- pow2_add. now replace (ln - ld + 1 + ld)%Z with (ln + 1)%Z by lia. }
  assert (E2 : (Qpower 2 (ln - ld - 1) * Qpower 2 (ld + 1) == Qpower 2 ln)%Q).
  { rewrite <- pow2_add. now replace (ln - ld - 1 + (ld + 1))%Z with ln by lia. }
  pose proof (pow2_pos (ln - ld + 1)) as P1. pose proof (pow2_pos (ln - ld - 1)) as P2.
  pose proof (pow2_pos ld) as P3. pose proof (pow2_pos (ld + 1)) as P4.
  generalize dependent (Qpower 2 (ln - ld + 1)). generalize dependent (Qpower 2 (ln - ld - 1)).
  generalize dependent (Qpower 2 (ld + 1)). generalize dependent (Qpower 2 ld).
  generalize dependent (Qpower 2 (ln + 1)). generalize dependent (Qpower 2 ln).
  generalize dependent (inject_Z (Zpos d)). generalize dependent (inject_Z n).
  generalize dependent (n # d).
  intros. split; nra.
Qed.

Lemma floor_log2_spec (q : Q) :
  (0 < q)%Q ->
  (Qpower 2 (floor_log2 q) <= q)%Q /\ (q < Qpower 2 (floor_log2 q + 1))%Q.
Proof.
  intros Hq. destruct q as [n d].
  assert (Hn : (0 < n)%Z) by (unfold Qlt in Hq; simpl in Hq; lia).
  destruct (num_den_bounds n d Hn) as [Hlow Hhigh].
  unfold floor_log2. simpl Qnum. simpl Qden.
  destruct (Qle_bool (Qpower 2 (Z.log2 n - Z.log2 (Zpos d))) (n # d)) eqn:Hle.
  - apply Qle_bool_iff in Hle. split; assumption.
  - assert (Hlt : (n # d < Qpower 2 (Z.log2 n - Z.log2 (Zpos d)))%Q).
    { apply Qnot_le_lt. intros Hc. apply Qle_bool_iff in Hc. congruence. }
    split; [exact Hlow |].
    now replace (Z.log2 n - Z.log2 (Zpos d) - 1 + 1)%Z
      with (Z.log2 n - Z.log2 (Zpos d))%Z by lia.
Qed.

Lemma pow2_lt_inv (a b : Z) : (Qpower 2 a < Qpower 2 b)%Q -> (a < b)%Z.
Proof. intros Hab. apply (Qpower_lt_compat_l_inv 2); [exact Hab | reflexivity]. Qed.

Lemma floor_log2_mono (x y : Q) :
  (0 < x)%Q -> (x <= y)%Q -> (floor_log2 x <= floor_log2 y)%Z.
Proof.
  intros Hx Hxy.
  destruct (floor_log2_spec x Hx) as [Hx1 _].
  destruct (floor_log2_spec y) as [_ Hy2]; [lra |].
  assert (Hlt : (floor_log2 x < floor_log2 y + 1)%Z) by (apply pow2_lt_inv; lra).
  lia.
Qed.

(** Rounding to binary64 is monotone: within one binade by [rne_mono], across
    binades because the power of two between them is on both grids. *)
Lemma round_pos_nonneg (q : Q) : (0 < q)%Q -> (0 <= round_pos q)%Q.
Proof.
  intros Hq. unfold round_pos.
  set (e := Z.max (floor_log2 q - 52) (-1074)).
  pose proof (pow2_pos e) as He.
  assert (Hr : (0 <= rne (q / Qpower 2 e))%Z).
  { rewrite <- (rne_inject_Z 0). apply rne_mono.
    apply Qle_shift_div_l; [exact He | change (inject_Z 0) with 0%Q; lra]. }
  rewrite Zle_Qle in Hr. change (inject_Z 0) with 0%Q in Hr.
  generalize dependent (inject_Z (rne (q / Qpower 2 e))). intros. nra.
Qed.

Lemma round_pos_mono (x y : Q) :
  (0 < x)%Q -> (x <= y)%Q -> (round_pos x <= round_pos y)%Q.
Proof.
  intros Hx Hxy.
  assert (Hy : (0 < y)%Q) by lra.
  pose proof (floor_log2_mono x y Hx Hxy) as Hk.
  destruct (floor_log2_spec x Hx) as [_ Hx2].
  destruct (floor_log2_spec y Hy) as [Hy1 _].
  unfold round_pos.
  remember (floor_log2 x) as kx eqn:Ekx. remember (floor_log2 y) as ky eqn:Eky.
  clear Ekx Eky.
  remember (Z.max (kx - 52) (-1074)) as ex eqn:Eex.
  remember (Z.max (ky - 52) (-1074)) as ey eqn:Eey.
  pose proof (pow2_pos ex) as Pex. pose proof (pow2_pos ey) as Pey.
  destruct (Z.eq_dec ex ey) as [Heq | Hne].
  - subst ey. rewrite <- Heq.
    assert (Hr : (rne (x / Qpower 2 ex) <= rne (y / Qpower 2 ex))%Z).
    { apply rne_mono. apply Qle_shift_div_l; [exact Pex |].
      assert (E : (x / Qpower 2 ex * Qpower 2 ex == x)%Q) by (field; lra).
      rewrite E. exact Hxy. }
    rewrite Zle_Qle in Hr.
    generalize dependent (inject_Z (rne (x / Qpower 2 ex))).
    generalize dependent (inject_Z (rne (y / Qpower 2 ex))). intros. nra.
  - assert (Hey : ey = (ky - 52)%Z) by lia.
    assert (Hkxy : (kx + 1 <= ky)%Z) by lia.
    assert (Hry : (2 ^ 52 <= rne (y / Qpower 2 ey))%Z).
    { rewrite <- (rne_inject_Z (2 ^ 52)). apply rne_mono.
      apply Qle_shift_div_l; [exact Pey |].
      rewrite pow2_inject by lia. rewrite <- pow2_add.
      now replace (52 + ey)%Z with ky by lia. }
    assert (Hrx : (rne (x / Qpower 2 ex) <= 2 ^ (ky - ex))%Z).
    { rewrite <- (rne_inject_Z (2 ^ (ky - ex))). apply rne_mono.
      apply Qle_shift_div_r; [exact Pex |].
      rewrite pow2_inject by lia. rewrite <- pow2_add.
      replace (ky - ex + ex)%Z with ky by lia.
      pose proof (pow2_le (kx + 1) ky Hkxy). lra. }
    rewrite Zle_Qle in Hry, Hrx.
    rewrite pow2_inject in Hry by lia. rewrite pow2_inject in Hrx by lia.
    assert (E1 : (Qpower 2 52 * Qpower 2 ey == Qpower 2 ky)%Q).
    { rewrite <- pow2_add. now replace (52 + ey)%Z with ky by lia. }
    assert (E2 : (Qpower 2 (ky - ex) * Qpower 2 ex == Qpower 2 ky)%Q).
    { rewrite <- pow2_add. now replace (ky - ex + ex)%Z with ky by lia. }
    generalize dependent (Qpower 2 52). generalize dependent (Qpower 2 (ky - ex)).
    generalize dependent (Qpower 2 ky).
    generalize dependent (inject_Z (rne (x / Qpower 2 ex))).
    generalize dependent (inject_Z (rne (y / Qpower 2 ey))).
    generalize dependent (Qpower 2 ex). generalize dependent (Qpower 2 ey).
    intros. nra.
Qed.

Lemma binary64_mono (x y : Q) : (x <= y)%Q -> (binary64 x <= binary64 y)%Q.
Proof.
  intros Hxy. unfold binary64.
  destruct (Qcompare_spec x 0) as [Hx | Hx | Hx];
    destruct (Qcompare_spec y 0) as [Hy | Hy | Hy]; try (exfalso; lra).
  - lra.
  - apply round_pos_nonneg, Hy.
  - assert (Hr : (0 <= round_pos (- x))%Q) by (apply round_pos_nonneg; lra). lra.
  - assert (Hr : (round_pos (- y) <= round_pos (- x))%Q) by (apply round_pos_mono; lra).
    lra.
  - assert (Hr1 : (0 <= round_pos (- x))%Q) by (apply round_pos_nonneg; lra).
    assert (Hr2 : (0 <= round_pos y)%Q) by (apply round_pos_nonneg; lra). lra.
  - apply round_pos_mono; assumption.
Qed.

Lemma binary64_lt_inv (x y : Q) : (binary64 x < binary64 y)%Q -> (x < y)%Q.
Proof.
  intros Hlt. apply Qnot_le_lt. intros Hle.
  apply binary64_mono in Hle. lra.
Qed.

Lemma binary64_eq (x y : Q) : (x == y)%Q -> (binary64 x == binary64 y)%Q.
Proof.
  intros Hxy. apply Qle_antisym; apply binary64_mono; lra.
Qed.

(** Integers below 2^53 in magnitude are binary64 numbers. *)
Lemma round_pos_inject_Z (z : Z) :
  (0 < z < 2 ^ 53)%Z -> (round_pos (inject_Z z) == inject_Z z)%Q.
Proof.
  intros [Hz0 Hz1].
  assert (Hq : (0 < inject_Z z)%Q) by (change 0%Q with (inject_Z 0); now rewrite <- Zlt_Qlt).
  destruct (floor_log2_spec (inject_Z z) Hq) as [Hk1 _].
  assert (Hk : (floor_log2 (inject_Z z) < 53)%Z).
  { apply pow2_lt_inv. apply (Qle_lt_trans _ _ _ Hk1).
    rewrite <- pow2_inject by lia. now rewrite <- Zlt_Qlt. }
  unfold round_pos.
  remember (Z.max (floor_log2 (inject_Z z) - 52) (-1074)) as e eqn:Ee.
  assert (He : (e <= 0)%Z) by lia.
  pose proof (pow2_pos e) as Pe.
  assert (Hint : (inject_Z z / Qpower 2 e == inject_Z (z * 2 ^ (- e)))%Q).
  { rewrite inject_Z_mult, pow2_inject by lia.
    rewrite Qpower_opp. field. lra. }
  rewrite (rne_eq _ _ Hint).
  rewrite inject_Z_mult, pow2_inject by lia.
  rewrite Qpower_opp. field. lra.
Qed.

Lemma binary64_inject_Z (z : Z) :
  (Z.abs z < 2 ^ 53)%Z -> (binary64 (inject_Z z) == inject_Z z)%Q.
Proof.
  intros Hz. unfold binary64.
  destruct (Qcompare_spec (inject_Z z) 0) as [H0 | H0 | H0].
  - lra.
  - change 0%Q with (inject_Z 0) in H0. rewrite <- Zlt_Qlt in H0.
    rewrite <- inject_Z_opp. rewrite round_pos_inject_Z by lia.
    rewrite inject_Z_opp. lra.
  - change 0%Q with (inject_Z 0) in H0. rewrite <- Zlt_Qlt in H0.
    apply round_pos_inject_Z. lia.
Qed.

Section TelegramProperties.
Context `{Settings} `{Crypto} `{UserRepository}.

(** The verifier accepts exactly on a matching digest inside the window whose
    two ends are the floats the code computes. *)
Lemma validate_widget_hash_true (now : Q) (telegram_data : TelegramWidgetData) :
  validate_widget_hash now telegram_data = true <->
  hmac_sha256_hexdigest (sha256_digest (list_byte_of_string bot_token))
                        (encoded telegram_data) = hash telegram_data /\
  (binary64 (now - 5 * 60) < inject_Z (auth_date telegram_data))%Q /\
  (inject_Z (auth_date telegram_data) < binary64 (now + 5 * 60))%Q.
Proof.
  unfold validate_widget_hash, _get_secret_key.
  rewrite <- !Qltb_lt, <- String.eqb_eq.
  destruct (Qltb (binary64 (now - 5 * 60)) _), (Qltb _ (binary64 (now + 5 * 60))); simpl;
    intuition discriminate.
Qed.

(** C1, amended: the verifier returns true if and only if the HMAC-SHA256
    digest of the payload's encoded bytes under the SHA-256 digest of the bot
    token equals the supplied hash and the payload's timestamp lies strictly
    between the two ends of the window as the code computes them, the binary64
    results of now - 5 * 60 and now + 5 * 60; otherwise it returns false.
    Whenever it returns true for a timestamp below 2^53 in magnitude, the
    timestamp also lies strictly between the exact now - 5 * 60 and
    now + 5 * 60. *)
Theorem validate_widget_hash_iff (now : Q) (telegram_data : TelegramWidgetData) :
  (validate_widget_hash now telegram_data = true <->
   hmac_sha256_hexdigest (sha256_digest (list_byte_of_string bot_token))
                         (encoded telegram_data) = hash telegram_data /\
   (binary64 (now - 5 * 60) < inject_Z (auth_date telegram_data))%Q /\
   (inject_Z (auth_date telegram_data) < binary64 (now + 5 * 60))%Q) /\
  (validate_widget_hash now telegram_data = false <->
   hmac_sha256_hexdigest (sha256_digest (list_byte_of_string bot_token))
                         (encoded telegram_data) <> hash telegram_data \/
   ~ ((binary64 (now - 5 * 60) < inject_Z (auth_date telegram_data))%Q /\
      (inject_Z (auth_date telegram_data) < binary64 (now + 5 * 60))%Q)) /\
  (validate_widget_hash now telegram_data = true ->
   (Z.abs (auth_date telegram_data) < 2 ^ 53)%Z ->
   (now - 5 * 60 < inject_Z (auth_date telegram_data))%Q /\
   (inject_Z (auth_date telegram_data) < now + 5 * 60)%Q).
Proof.
  pose proof (validate_widget_hash_true now telegram_data) as Htrue.
  split; [exact Htrue | split].
  - rewrite <- not_true_iff_false, Htrue.
    split.
    + intros Hnot.
      destruct (String.eqb_spec
                  (hmac_sha256_hexdigest (sha256_digest (list_byte_of_string bot_token))
                                         (encoded telegram_data))
                  (hash telegram_data)) as [Heq | Hne]; [| now left].
      right. intros Hwin. apply Hnot. now split.
    + intros [Hne | Hwin] [Heq Hin]; [now apply Hne | now apply Hwin].
  - intros Hvalid Hsmall. apply Htrue in Hvalid as (_ & Hlo & Hhi).
    pose proof (binary64_inject_Z (auth_date telegram_data) Hsmall) as Hexact.
    rewrite <- Hexact in Hlo, Hhi.
    split; [exact (binary64_lt_inv _ _ Hlo) | exact (binary64_lt_inv _ _ Hhi)].
Qed.

(** C3: with a valid signature, (1) when a local user has the payload's
    telegram id, the login clears the session, stores that user's id under
    uid, whatever the session held and whoever the caller was, and answers
    need_to_connect false; (2) when no local user has it and the caller has a
    session user, it answers need_to_connect true and leaves the session and
    the users as they were; (3) when no local user has it and the caller has
    no session user, it raises [UserWithoutSessionException]. *)
Theorem telegram_login_cases
    (now : Q) (telegram_data : TelegramWidgetData) (caller : option ObjectId) (w : World) :
  validate_widget_hash now telegram_data = true ->
  (forall user,
     read_by_telegram_id (users w) (tg_id telegram_data) = Some user ->
     telegram_login now telegram_data caller w =
       ({| session := {["uid" := str_of_oid (User_id user)]}; users := users w |},
        Return {| need_to_connect := false |})) /\
  (forall uid,
     read_by_telegram_id (users w) (tg_id telegram_data) = None ->
     caller = Some uid ->
     telegram_login now telegram_data caller w =
       (w, Return {| need_to_connect := true |})) /\
  (read_by_telegram_id (users w) (tg_id telegram_data) = None ->
   caller = None ->
   telegram_login now telegram_data caller w =
     (w, Raise UserWithoutSessionException)).
Proof.
  intros Hvalid. unfold telegram_login. rewrite Hvalid. run_py.
  repeat split.
  - intros user ->. simpl. unfold with_session. simpl. now rewrite insert_empty.
  - intros uid -> ->. reflexivity.
  - intros -> ->. reflexivity.
Qed.

(** A payload that fails the verifier is refused before anything is read. *)
Lemma telegram_login_invalid
    (now : Q) (telegram_data : TelegramWidgetData) (caller : option ObjectId) (w : World) :
  validate_widget_hash now telegram_data = false ->
  telegram_login now telegram_data caller w = (w, Raise InvalidTelegramWidgetHash).
Proof. intros Hbad. unfold telegram_login. now rewrite Hbad. Qed.

End TelegramProperties.

(** ** The email code route *)

Section EmailProperties.
Context `{EmailFlowRepository}.

(** C8: the result of the code validation route is tagged with the status
    [verify_flow] returned; on [SUCCESS] it carries the flow's email and a
    verification token for the flow, and on every other status both fields are
    absent.  The route returns whenever [verify_flow] returns a status other
    than [SUCCESS], or [SUCCESS] together with the flow. *)
Theorem validate_code_route_result
    (email_flow_id : ObjectId) (verification_code : string)
    (user_id client_id : option ObjectId) (store store' : FlowStore)
    (verification_result : EmailFlowVerificationResult) :
  verify_flow email_flow_id verification_code user_id client_id store
    = (store', Return verification_result) ->
  (vr_status verification_result = SUCCESS -> is_Some (vr_email_flow verification_result)) ->
  exists result,
    _validate_code_route email_flow_id verification_code user_id client_id store
      = (store', Return result) /\
    status result = vr_status verification_result /\
    (status result = SUCCESS ->
     exists email_flow,
       vr_email_flow verification_result = Some email_flow /\
       email result = Some (EmailFlow_email email_flow) /\
       email_verification_token result =
         Some (create_email_flow_token (EmailFlow_id email_flow))) /\
    (status result <> SUCCESS ->
     email result = None /\ email_verification_token result = None).
Proof.
  intros Hverify Hflow. unfold _validate_code_route.
  rewrite (bind_Return _ _ _ _ _ Hverify).
  case_bool_decide as Hstatus.
  - destruct (Hflow Hstatus) as [email_flow Hsome]. run_py. rewrite Hsome. simpl.
    eexists. split; [reflexivity |]. simpl. split; [reflexivity |]. split.
    + intros _. exists email_flow. auto.
    + intros Hne. contradiction.
  - run_py. eexists. split; [reflexivity |]. simpl. split; [reflexivity |]. split.
    + intros Hs. contradiction.
    + auto.
Qed.
End EmailProperties.

(** * The sample deployment at work *)

Section Samples.
#[local] Existing Instances
  sample_settings sample_urllib sample_crypto sample_bson sample_repository
  sample_oauth sample_flow_status sample_flows.

(** ** Redirect guard *)

Example guard_relative : ensure_allowed_redirect_uri "/dashboard" = Return tt.
Proof. reflexivity. Qed.

Example guard_scheme_only : ensure_allowed_redirect_uri "javascript:alert(1)" = Return tt.
Proof. reflexivity. Qed.

Example guard_port_ignored :
  ensure_allowed_redirect_uri "https://InnoHassle.ru:8443/me" = Return tt.
Proof. reflexivity. Qed.

Example guard_empty : ensure_allowed_redirect_uri "" = Return tt.
Proof. reflexivity. Qed.

Lemma ensure_allowed_redirect_uri_cases_witness :
  ensure_allowed_redirect_uri "/dashboard" = Return tt /\
  ensure_allowed_redirect_uri "https://api.innohassle.ru/users/me" = Return tt /\
  ensure_allowed_redirect_uri "https://evil.example/" = Raise InvalidReturnToURL /\
  ensure_allowed_redirect_uri "https://[innohassle.ru/" = Raise InvalidReturnToURL.
Proof.
  split; [| split; [| split]].
  - apply (proj1 (ensure_allowed_redirect_uri_cases "/dashboard")).
    reflexivity.
  - apply (proj1 (proj2 (ensure_allowed_redirect_uri_cases "https://api.innohassle.ru/users/me"))
             "api.innohassle.ru").
    + reflexivity.
    + apply (bool_decide_unpack _). vm_compute. exact I.
  - apply (proj1 (proj2 (proj2 (ensure_allowed_redirect_uri_cases "https://evil.example/")))
             "evil.example").
    + reflexivity.
    + apply (bool_decide_unpack _). vm_compute. exact I.
  - apply (proj2 (proj2 (proj2 (ensure_allowed_redirect_uri_cases "https://[innohassle.ru/")))
             ValueError).
    reflexivity.
Defined.

(** ** The login route and the callback *)

Example login_issues_redirect :
  fst (innopolis_login_or_register "/dashboard" bare_request (Some tt)
         (sample_world {["uid" := bob]} two_users))
  = sample_world silent_session two_users.
Proof. reflexivity. Qed.

Example login_refuses_foreign_address :
  innopolis_login_or_register "https://evil.example/" bare_request None
    (sample_world {["uid" := bob]} two_users)
  = (sample_world {["uid" := bob]} two_users, Raise InvalidReturnToURL).
Proof. reflexivity. Qed.

Example callback_registers_and_binds :
  innopolis_callback code_request (sample_world silent_session two_users)
  = (sample_world {["uid" := carol]} (two_users ++ [(carol, None)])%list,
     Return (RedirectResponse (LocStr "/dashboard") 302)).
Proof. reflexivity. Qed.

Lemma recover_mismatching_state_cases_witness :
  recover_mismatching_state bare_request
    (sample_world {["uid" := bob; "redirect_uri" := "/dashboard"]} two_users)
  = (sample_world {["uid" := bob; "redirect_uri" := "/dashboard"]} two_users,
     Return (RedirectResponse (LocStr "/dashboard") 302)) /\
  recover_mismatching_state bare_request (sample_world {["uid" := bob]} two_users)
  = (sample_world {["uid" := bob]} two_users,
     Return (RedirectResponse (LocStr "https://innohassle.ru") 302)) /\
  (exists url,
     recover_mismatching_state bare_request (sample_world issued_session two_users)
     = (sample_world issued_session two_users, Return (RedirectResponse (LocURL url) 302)) /\
     url_base url = "https://api.innohassle.ru/auth/innopolis/login" /\
     forall v, ("redirect_uri", v) ∈ url_query url <-> v = "/dashboard") /\
  recover_mismatching_state bare_request (sample_world ∅ two_users)
  = (sample_world ∅ two_users,
     Return (RedirectResponse (LocStr "https://innohassle.ru") 302)).
Proof.
  split; [| split; [| split]].
  - exact (proj1 (recover_mismatching_state_cases bare_request
                    (sample_world {["uid" := bob; "redirect_uri" := "/dashboard"]} two_users))
             bob "/dashboard" eq_refl eq_refl ltac:(discriminate) eq_refl).
  - exact (proj1 (proj2 (recover_mismatching_state_cases bare_request
                           (sample_world {["uid" := bob]} two_users)))
             bob eq_refl eq_refl).
  - exact (proj1 (proj2 (proj2 (recover_mismatching_state_cases bare_request
                                  (sample_world issued_session two_users))))
             "/dashboard" eq_refl eq_refl ltac:(discriminate) eq_refl).
  - exact (proj2 (proj2 (proj2 (recover_mismatching_state_cases bare_request
                                  (sample_world ∅ two_users))))
             eq_refl eq_refl).
Defined.

(** C4 as stated fails: with a uid and a stored redirect_uri outside the
    allow-list, the recovery raises instead of redirecting to it. *)
Lemma recover_known_uri_not_followed :
  session (sample_world {["uid" := bob; "redirect_uri" := "https://evil.example/"]} two_users)
    !! "uid" = Some bob /\
  session (sample_world {["uid" := bob; "redirect_uri" := "https://evil.example/"]} two_users)
    !! "redirect_uri" = Some "https://evil.example/" /\
  snd (recover_mismatching_state bare_request
         (sample_world {["uid" := bob; "redirect_uri" := "https://evil.example/"]} two_users))
  = Raise InvalidReturnToURL /\
  snd (recover_mismatching_state bare_request
         (sample_world {["uid" := bob; "redirect_uri" := "https://evil.example/"]} two_users))
  <> Return (RedirectResponse (LocStr "https://evil.example/") 302).
Proof. repeat split; [reflexivity .. | discriminate]. Qed.

Lemma recover_mismatching_state_outcome_witness :
  (exists location,
     recover_mismatching_state bare_request (sample_world issued_session two_users)
     = (sample_world issued_session two_users, Return (RedirectResponse location 302))) /\
  recover_mismatching_state bare_request (sample_world foreign_session two_users)
  = (sample_world foreign_session two_users, Raise InvalidReturnToURL).
Proof.
  split.
  - exact (proj1 (recover_mismatching_state_outcome bare_request
                    (sample_world issued_session two_users))
             (or_intror eq_refl)).
  - refine (proj2 (recover_mismatching_state_outcome bare_request
                     (sample_world foreign_session two_users)) _ _).
    + reflexivity.
    + vm_compute. discriminate.
Defined.

(** C5 as stated fails: with no uid and a stored redirect_uri outside the
    allow-list, the recovery raises [InvalidReturnToURL] and returns no
    response. *)
Lemma recover_raises_on_foreign_uri :
  snd (recover_mismatching_state bare_request (sample_world foreign_session two_users))
  = Raise InvalidReturnToURL /\
  ~ exists response,
      snd (recover_mismatching_state bare_request (sample_world foreign_session two_users))
      = Return response.
Proof. split; [reflexivity | intros [response Hr]; discriminate Hr]. Qed.

Lemma innopolis_callback_provider_error_witness :
  truthy (query_params error_request !! "error") = true /\
  innopolis_callback error_request (sample_world silent_session two_users)
  = (sample_world ∅ two_users, Return (RedirectResponse (LocStr "/dashboard") 302)) /\
  innopolis_callback error_request (sample_world issued_session two_users)
  = (sample_world issued_session two_users,
     Return (JSONResponse 403 [("error", Some "login_required");
                               ("description", Some "no session")])).
Proof.
  split; [reflexivity | split].
  - exact (proj1 (innopolis_callback_provider_error error_request
                    (sample_world silent_session two_users) eq_refl)
             "/dashboard" eq_refl eq_refl eq_refl).
  - refine (proj2 (innopolis_callback_provider_error error_request
                     (sample_world issued_session two_users) eq_refl) _).
    vm_compute. discriminate.
Defined.

(** C7 as stated fails: a provider error with prompt "none" and a stored
    redirect_uri outside the allow-list ends in [InvalidReturnToURL], not in a
    redirect to the stored redirect_uri. *)
Lemma silent_probe_error_not_redirected :
  truthy (query_params error_request !! "error") = true /\
  session (sample_world foreign_session two_users) !! "prompt" = Some "none" /\
  session (sample_world foreign_session two_users) !! "redirect_uri"
  = Some "https://evil.example/" /\
  innopolis_callback error_request (sample_world foreign_session two_users)
  = (sample_world {["prompt" := "none"]} two_users, Raise InvalidReturnToURL).
Proof. repeat split; reflexivity. Qed.

Lemma innopolis_callback_missing_redirect_uri_witness :
  innopolis_callback error_request (sample_world {["prompt" := "none"]} two_users)
  = (sample_world {["prompt" := "none"]} two_users, Raise (KeyError "redirect_uri")) /\
  snd (innopolis_callback code_request
         (sample_world {["_state_innopolis_s1" := callback_address]} two_users))
  = Raise (KeyError "redirect_uri").
Proof.
  split.
  - exact (proj1 (innopolis_callback_missing_redirect_uri error_request
                    (sample_world {["prompt" := "none"]} two_users))
             eq_refl eq_refl eq_refl).
  - exact (proj2 (innopolis_callback_missing_redirect_uri code_request
                    (sample_world {["_state_innopolis_s1" := callback_address]} two_users))
             (sample_world ∅ two_users) carol eq_refl eq_refl eq_refl).
Defined.

Lemma innopolis_callback_transient_keys_witness :
  (session (sample_world {["uid" := carol]} (two_users ++ [(carol, None)])%list)
     !! "redirect_uri" = None /\
   session (sample_world {["uid" := carol]} (two_users ++ [(carol, None)])%list)
     !! "prompt" = None) /\
  fst (innopolis_callback error_request (sample_world issued_session two_users))
  = sample_world issued_session two_users /\
  fst (innopolis_callback bare_request (sample_world silent_session two_users))
  = sample_world silent_session two_users.
Proof.
  split; [| split].
  - refine (proj1 (innopolis_callback_transient_keys code_request
                     (sample_world silent_session two_users))
              _ (RedirectResponse (LocStr "/dashboard") 302) _ _).
    + reflexivity.
    + right. split; [reflexivity |].
      exists (sample_world {["redirect_uri" := "/dashboard"; "prompt" := "none"]} two_users),
             carol.
      reflexivity.
  - refine (proj1 (proj2 (innopolis_callback_transient_keys error_request
                            (sample_world issued_session two_users))) _ _).
    + reflexivity.
    + vm_compute. discriminate.
  - exact (proj2 (proj2 (innopolis_callback_transient_keys bare_request
                           (sample_world silent_session two_users)))
             (sample_world silent_session two_users) eq_refl eq_refl).
Defined.

(** C6 as stated fails: a callback answered with the 403 body of a provider
    error leaves redirect_uri in the session, and a callback answered by the
    state-mismatch recovery leaves redirect_uri and prompt there. *)
Lemma callback_leaves_transient_keys :
  (exists content,
     snd (innopolis_callback error_request (sample_world issued_session two_users))
     = Return (JSONResponse 403 content)) /\
  session (fst (innopolis_callback error_request (sample_world issued_session two_users)))
    !! "redirect_uri" = Some "/dashboard" /\
  (exists url,
     snd (innopolis_callback bare_request (sample_world silent_session two_users))
     = Return (RedirectResponse url 302)) /\
  session (fst (innopolis_callback bare_request (sample_world silent_session two_users)))
    !! "redirect_uri" = Some "/dashboard" /\
  session (fst (innopolis_callback bare_request (sample_world silent_session two_users)))
    !! "prompt" = Some "none".
Proof. repeat split; try reflexivity; eexists; reflexivity. Qed.

(** ** Session dependencies *)

(** carol is not in the user table, and the session still names her. *)
Lemma unawaited_exists_returns_stale_uid_witness :
  sample_exists two_users carol = false /\
  @_get_optional_uid_from_session sample_bson running_repository
    (running_world {["uid" := carol; "redirect_uri" := "/dashboard"]} two_users)
  = (running_world {["uid" := carol; "redirect_uri" := "/dashboard"]} two_users,
     Return (Some carol)) /\
  @_get_uid_from_session sample_bson running_repository
    (running_world {["uid" := carol; "redirect_uri" := "/dashboard"]} two_users)
  = (running_world {["uid" := carol; "redirect_uri" := "/dashboard"]} two_users,
     Return carol).
Proof.
  split; [reflexivity |].
  exact (@unawaited_exists_returns_stale_uid sample_bson running_repository
           (running_world {["uid" := carol; "redirect_uri" := "/dashboard"]} two_users)
           carol carol (fun _ _ => eq_refl) eq_refl eq_refl).
Defined.

Example live_uid_kept :
  _get_optional_uid_from_session (sample_world {["uid" := alice]} two_users)
  = (sample_world {["uid" := alice]} two_users, Return (Some alice)).
Proof. reflexivity. Qed.

Example no_uid_is_none :
  _get_optional_uid_from_session (sample_world issued_session two_users)
  = (sample_world issued_session two_users, Return None).
Proof. reflexivity. Qed.

(** ** The widget login *)

Example window_is_five_minutes : (5 * 60 == 300)%Q.
Proof. reflexivity. Qed.

Example signed_and_fresh : validate_widget_hash (1700000100 # 1) payload_777 = true.
Proof. reflexivity. Qed.

Example signed_but_stale : validate_widget_hash (1700000300 # 1) payload_777 = false.
Proof. reflexivity. Qed.

Example signed_but_early : validate_widget_hash (1699999700 # 1) payload_777 = false.
Proof. reflexivity. Qed.

Example fresh_but_forged :
  validate_widget_hash (1700000100 # 1)
    {| tg_id := 778; auth_date := auth_date payload_777;
       hash := hash payload_777; encoded := list_byte_of_string "auth_date=1700000000 id=778" |}
  = false.
Proof. reflexivity. Qed.

(** Rounding at work: the float nearest to one tenth; the clock reading is a
    float, 2^-20 above 8589934292; five minutes added to it round onto 2^33. *)
Example one_tenth : (binary64 (1 # 10) == 3602879701896397 # 36028797018963968)%Q.
Proof. reflexivity. Qed.

Example clock_2242_value : (clock_2242 == 8589934292 + (1 # 1048576))%Q.
Proof. reflexivity. Qed.

Example clock_2242_is_a_float : (binary64 clock_2242 == clock_2242)%Q.
Proof. reflexivity. Qed.

Example clock_2242_upper_end : (binary64 (clock_2242 + 5 * 60) == 8589934592)%Q.
Proof. reflexivity. Qed.

(** C1 as stated fails: a correctly signed payload whose timestamp lies
    strictly within five minutes of now on both sides is refused, because the
    upper end of the window, computed as a float, rounds down onto the
    timestamp. *)
Lemma exact_window_is_not_enough :
  hmac_sha256_hexdigest (sha256_digest (list_byte_of_string bot_token))
                        (encoded payload_2242) = hash payload_2242 /\
  (clock_2242 - 5 * 60 < inject_Z (auth_date payload_2242))%Q /\
  (inject_Z (auth_date payload_2242) < clock_2242 + 5 * 60)%Q /\
  validate_widget_hash clock_2242 payload_2242 = false.
Proof. repeat split; vm_compute; reflexivity. Qed.

Lemma validate_widget_hash_iff_witness :
  validate_widget_hash (1700000100 # 1) payload_777 = true /\
  (Z.abs (auth_date payload_777) < 2 ^ 53)%Z /\
  ((1700000100 # 1) - 5 * 60 < inject_Z (auth_date payload_777))%Q /\
  (inject_Z (auth_date payload_777) < (1700000100 # 1) + 5 * 60)%Q.
Proof.
  split; [reflexivity | split; [reflexivity |]].
  exact (proj2 (proj2 (validate_widget_hash_iff (1700000100 # 1) payload_777))
           eq_refl eq_refl).
Defined.

Lemma telegram_login_cases_witness :
  validate_widget_hash (1700000100 # 1) payload_777 = true /\
  validate_widget_hash (1700000100 # 1) payload_888 = true /\
  telegram_login (1700000100 # 1) payload_777 (Some bob)
    (sample_world {["uid" := bob; "redirect_uri" := "/dashboard"]} two_users)
  = (sample_world {["uid" := alice]} two_users, Return {| need_to_connect := false |}) /\
  telegram_login (1700000100 # 1) payload_888 (Some bob)
    (sample_world {["uid" := bob]} two_users)
  = (sample_world {["uid" := bob]} two_users, Return {| need_to_connect := true |}) /\
  telegram_login (1700000100 # 1) payload_888 None (sample_world ∅ two_users)
  = (sample_world ∅ two_users, Raise UserWithoutSessionException).
Proof.
  split; [reflexivity | split; [reflexivity | split; [| split]]].
  - exact (proj1 (telegram_login_cases (1700000100 # 1) payload_777 (Some bob)
                    (sample_world {["uid" := bob; "redirect_uri" := "/dashboard"]} two_users)
                    eq_refl)
             (Build_User sample_bson alice) eq_refl).
  - exact (proj1 (proj2 (telegram_login_cases (1700000100 # 1) payload_888 (Some bob)
                           (sample_world {["uid" := bob]} two_users) eq_refl))
             bob eq_refl eq_refl).
  - exact (proj2 (proj2 (telegram_login_cases (1700000100 # 1) payload_888 None
                           (sample_world ∅ two_users) eq_refl))
             eq_refl eq_refl).
Defined.

(** ** The email code route *)

Lemma validate_code_route_result_witness :
  (exists result,
     _validate_code_route "f1" "123456" (Some alice) None two_flows = (two_flows, Return result) /\
     status result = success /\
     email result = Some "a@b.com" /\
     email_verification_token result = Some "token-for-f1") /\
  (exists result,
     _validate_code_route "f1" "000000" (Some alice) None two_flows = (two_flows, Return result) /\
     status result = incorrect /\
     email result = None /\
     email_verification_token result = None).
Proof.
  split.
  - destruct (@validate_code_route_result sample_bson sample_flow_status sample_flows "f1" "123456" (Some alice) None two_flows two_flows
                (Build_EmailFlowVerificationResult sample_bson sample_flow_status success
                   (Some (Build_EmailFlow sample_bson "f1" "a@b.com")))
                eq_refl (fun _ => ex_intro _ _ eq_refl))
      as (result & Hrun & Hstatus & Hsuccess & _).
    exists result. split; [exact Hrun |]. split; [exact Hstatus |].
    destruct (Hsuccess Hstatus) as (email_flow & [= <-] & Hemail & Htoken).
    split; assumption.
  - destruct (@validate_code_route_result sample_bson sample_flow_status sample_flows "f1" "000000" (Some alice) None two_flows two_flows
                (Build_EmailFlowVerificationResult sample_bson sample_flow_status incorrect
                   (Some (Build_EmailFlow sample_bson "f1" "a@b.com")))
                eq_refl (fun _ => ex_intro _ _ eq_refl))
      as (result & Hrun & Hstatus & _ & Hother).
    exists result. split; [exact Hrun |]. split; [exact Hstatus |].
    apply Hother. rewrite Hstatus. discriminate.
Defined.
End Samples.

(** * Further properties of the routes *)

(** ** The login route *)

Section LoginProperties.
Context `{Settings} `{UrlLib} `{OAuthClient}.

(** Past the guard, the login route is the OAuth client run on a session that
    holds the redirect_uri, and the prompt when one was given, and nothing
    else. *)
Lemma innopolis_login_or_register_run
    (redirect_uri : string) (request : Request) (prompt : option unit) (w : World) :
  ensure_allowed_redirect_uri redirect_uri = Return tt ->
  innopolis_login_or_register redirect_uri request prompt w =
    match prompt with
    | Some _ =>
        on_session (authorize_redirect request sso_redirect_uri (Some "none"))
          {| session := <["prompt" := "none"]> {["redirect_uri" := redirect_uri]};
             users := users w |}
    | None =>
        on_session (authorize_redirect request sso_redirect_uri None)
          {| session := {["redirect_uri" := redirect_uri]}; users := users w |}
    end.
Proof.
  intros Hok. unfold innopolis_login_or_register.
  unfold session_clear, session_set, modify, lift.
  unfold mbind, M_bind, mret, M_ret. rewrite Hok.
  destruct prompt; unfold with_session; simpl; now rewrite insert_empty.
Qed.

(** X1: a redirect_uri the guard refuses stops the login route before it
    touches anything: it raises [InvalidReturnToURL], the session is not
    cleared and the OAuth client is not called. *)
Theorem login_refused_leaves_state
    (redirect_uri : string) (request : Request) (prompt : option unit) (w : World) :
  ensure_allowed_redirect_uri redirect_uri <> Return tt ->
  innopolis_login_or_register redirect_uri request prompt w = (w, Raise InvalidReturnToURL).
Proof.
  intros Hbad.
  destruct (ensure_allowed_redirect_uri_total redirect_uri) as [Hok | Hraise];
    [contradiction |].
  unfold innopolis_login_or_register, lift. unfold mbind, M_bind. now rewrite Hraise.
Qed.

(** X2: past the guard, the login route forgets the session it was called
    with: two callers with the same users get the same state and the same
    response, whatever their sessions held (a uid included). *)
Theorem login_forgets_prior_session
    (redirect_uri : string) (request : Request) (prompt : option unit) (w1 w2 : World) :
  ensure_allowed_redirect_uri redirect_uri = Return tt ->
  users w1 = users w2 ->
  innopolis_login_or_register redirect_uri request prompt w1 =
  innopolis_login_or_register redirect_uri request prompt w2.
Proof.
  intros Hok Husers.
  rewrite !(innopolis_login_or_register_run _ _ _ _ Hok). now rewrite Husers.
Qed.
End LoginProperties.

(** ** The callback, by response *)

Section CallbackResponses.
Context `{Settings} `{UrlLib} `{OAuthClient}.

(** What the recovery can return: the landing page, or the stored redirect_uri
    past the guard, as it is or inside the login address. *)
Lemma recover_mismatching_state_returns
    (request : Request) (w w' : World) (response : Response) :
  recover_mismatching_state request w = (w', Return response) ->
  exists location,
    response = RedirectResponse location 302 /\
    (location = LocStr web_url \/
     exists uri,
       ensure_allowed_redirect_uri uri = Return tt /\
       (location = LocStr uri \/
        location = LocURL (include_query_params
                             (url_for request "innopolis_login_or_register")
                             [("redirect_uri", uri)]))).
Proof.
  unfold recover_mismatching_state. run_py.
  destruct (session w !! "uid"), (truthy (session w !! "redirect_uri")); simpl;
    try (intros [= _ <-]; eexists; split; [reflexivity | now left]);
    destruct (ensure_allowed_redirect_uri (default "" (session w !! "redirect_uri")))
      as [[] | e] eqn:Hguard; simpl; try discriminate;
    intros [= _ <-]; eexists; (split; [reflexivity |]); right; eexists; split; eauto.
Qed.

(** X3: a callback whose exchange returns a token, with a stored redirect_uri
    that passes the guard, registers or updates the user, leaves a session that
    holds that user's id under uid and nothing else, and redirects (302) to the
    stored redirect_uri. *)
Theorem callback_success_binds_registered_user
    (request : Request) (w w1 : World) (token : Token) (uri : string) :
  truthy (query_params request !! "error") = false ->
  on_session (authorize_access_token request) w = (w1, Return token) ->
  session w1 !! "redirect_uri" = Some uri ->
  ensure_allowed_redirect_uri uri = Return tt ->
  innopolis_callback request w =
    ({| session :=
          {["uid" := str_of_oid
                       (User_id (register_or_update_via_innopolis_sso
                                   (users w1) (from_token_and_userinfo token)).2)]};
        users := (register_or_update_via_innopolis_sso
                    (users w1) (from_token_and_userinfo token)).1 |},
     Return (RedirectResponse (LocStr uri) 302)).
Proof.
  intros Herr Hex Huri Hok.
  rewrite (innopolis_callback_token_path request w w1 token Herr Hex).
  rewrite callback_with_token_run. now rewrite Huri, Hok.
Qed.

(** X4: a callback whose exchange returns a token, with a stored redirect_uri
    that the guard refuses, raises [InvalidReturnToURL] after the user was
    registered or updated: the users keep that write, the redirect_uri is
    gone from the session, and the rest of the session, its uid included, is as
    the exchange left it. *)
Theorem callback_success_refused_target
    (request : Request) (w w1 : World) (token : Token) (uri : string) :
  truthy (query_params request !! "error") = false ->
  on_session (authorize_access_token request) w = (w1, Return token) ->
  session w1 !! "redirect_uri" = Some uri ->
  ensure_allowed_redirect_uri uri <> Return tt ->
  innopolis_callback request w =
    ({| session := delete "redirect_uri" (session w1);
        users := (register_or_update_via_innopolis_sso
                    (users w1) (from_token_and_userinfo token)).1 |},
     Raise InvalidReturnToURL).
Proof.
  intros Herr Hex Huri Hbad.
  destruct (ensure_allowed_redirect_uri_total uri) as [Hok | Hraise]; [contradiction |].
  rewrite (innopolis_callback_token_path request w w1 token Herr Hex).
  rewrite callback_with_token_run. now rewrite Huri, Hraise.
Qed.

(** The callback's returns, path by path. *)
Lemma innopolis_callback_returns
    (request : Request) (w w' : World) (response : Response) :
  innopolis_callback request w = (w', Return response) ->
  (truthy (query_params request !! "error") = true /\
   session w !! "prompt" <> Some "none" /\
   response = JSONResponse 403
                [("error", query_params request !! "error");
                 ("description", query_params request !! "error_description")]) \/
  (exists uri,
     ensure_allowed_redirect_uri uri = Return tt /\
     response = RedirectResponse (LocStr uri) 302) \/
  (exists w1, recover_mismatching_state request w1 = (w', Return response)).
Proof.
  intros Hrun.
  destruct (truthy (query_params request !! "error")) eqn:Herr.
  - destruct (decide (session w !! "prompt" = Some "none")) as [Hprompt | Hprompt].
    + rewrite (innopolis_callback_silent_run request w Herr Hprompt) in Hrun.
      destruct (session w !! "redirect_uri") as [uri|]; [| discriminate].
      destruct (ensure_allowed_redirect_uri uri) as [[] | e] eqn:Hguard; [| discriminate].
      injection Hrun as _ <-. right. left. eauto.
    + rewrite (innopolis_callback_surfaced_run request w Herr Hprompt) in Hrun.
      injection Hrun as _ <-. left. auto.
  - destruct (on_session (authorize_access_token request) w) as [w1 [token | e]] eqn:Hex.
    + rewrite (innopolis_callback_token_path request w w1 token Herr Hex) in Hrun.
      rewrite callback_with_token_run in Hrun.
      destruct (session w1 !! "redirect_uri") as [uri|]; [| discriminate].
      destruct (ensure_allowed_redirect_uri uri) as [[] | e] eqn:Hguard; [| discriminate].
      injection Hrun as _ <-. right. left. eauto.
    + unfold innopolis_callback in Hrun. rewrite Herr, Hex in Hrun.
      destruct e; try discriminate. right. right. eauto.
Qed.

(** X5: whatever the callback returns is a redirect with status 302 or a JSON
    body with status 403, and the JSON body is returned only for a non-empty
    provider error while the stored prompt is not "none". *)
Theorem callback_response_shapes
    (request : Request) (w w' : World) (response : Response) :
  innopolis_callback request w = (w', Return response) ->
  (exists location, response = RedirectResponse location 302) \/
  (exists content,
     response = JSONResponse 403 content /\
     truthy (query_params request !! "error") = true /\
     session w !! "prompt" <> Some "none").
Proof.
  intros Hrun.
  destruct (innopolis_callback_returns request w w' response Hrun)
    as [(Herr & Hprompt & ->) | [(uri & _ & ->) | (w1 & Hrec)]].
  - right. eauto.
  - left. eauto.
  - destruct (recover_mismatching_state_returns request w1 w' response Hrec)
      as (location & -> & _).
    left. eauto.
Qed.

(** X6: the callback never redirects to an address the guard refuses: a
    redirect it returns goes to the configured landing page, to an address that
    passes the guard, or to the login route with such an address as its
    redirect_uri parameter. *)
Theorem callback_redirects_are_guarded
    (request : Request) (w w' : World) (location : Location) (code : Z) :
  innopolis_callback request w = (w', Return (RedirectResponse location code)) ->
  location = LocStr web_url \/
  exists uri,
    ensure_allowed_redirect_uri uri = Return tt /\
    (location = LocStr uri \/
     location = LocURL (include_query_params
                          (url_for request "innopolis_login_or_register")
                          [("redirect_uri", uri)])).
Proof.
  intros Hrun.
  destruct (innopolis_callback_returns request w w' _ Hrun)
    as [(_ & _ & Hjson) | [(uri & Hok & [= -> _]) | (w1 & Hrec)]].
  - discriminate Hjson.
  - right. eauto.
  - destruct (recover_mismatching_state_returns request w1 w' _ Hrec)
      as (location' & [= <-] & Hloc).
    exact Hloc.
Qed.
End CallbackResponses.

(** ** The guard under two allow-lists *)

(** X7: widening the allow-list never turns an accepted address into a
    refused one: what the guard accepts under one list it accepts under every
    list that contains it. *)
Theorem guard_accepts_under_wider_list
    (narrow wide : Settings) `{UrlLib} (return_to : string) :
  @allowed_domains narrow ⊆ @allowed_domains wide ->
  @ensure_allowed_redirect_uri narrow _ return_to = Return tt ->
  @ensure_allowed_redirect_uri wide _ return_to = Return tt.
Proof.
  intros Hsub Hnarrow.
  apply ensure_allowed_redirect_uri_accepts.
  apply ensure_allowed_redirect_uri_accepts in Hnarrow
    as [Hnone | (hostname & Hhost & Hin)].
  - now left.
  - right. exists hostname. split; [exact Hhost | now apply Hsub].
Qed.

(** ** Session dependencies, by outcome *)

Section DependencyOutcomes.
Context `{UserRepository}.

(** X8: an identity the required dependency returns is always the session's
    uid read as an identifier, and returning it leaves the state as it was:
    the dependency never answers with an identity the session does not hold,
    and never writes to the session when it answers. *)
Theorem session_user_is_session_uid (w w' : World) (oid : ObjectId) :
  _get_uid_from_session w = (w', Return oid) ->
  w' = w /\
  exists uid,
    session w !! "uid" = Some uid /\
    PydanticObjectId uid = Some oid.
Proof.
  unfold _get_uid_from_session, _get_optional_uid_from_session. run_py.
  destruct (session w !! "uid") as [uid|] eqn:Huid; simpl; [| discriminate].
  destruct (PydanticObjectId uid) as [oid'|] eqn:Hoid; simpl; [| discriminate].
  destruct (user_exists (users w) oid'); simpl; [| discriminate].
  intros [= <- <-]. split; [reflexivity |]. exists uid.
  split; first [assumption | reflexivity].
Qed.

(** X9: without a uid key the required dependency raises
    [UserWithoutSessionException] and the optional one returns [None]; with a
    uid that is not a well-formed identifier both raise [InvalidId]; in both
    cases the session is kept as it was (the state changes only on the branch
    for a well-formed uid and a false tested value). *)
Theorem missing_or_malformed_uid_keeps_session (w : World) :
  (session w !! "uid" = None ->
   _get_uid_from_session w = (w, Raise UserWithoutSessionException) /\
   _get_optional_uid_from_session w = (w, Return None)) /\
  (forall uid,
     session w !! "uid" = Some uid ->
     PydanticObjectId uid = None ->
     _get_uid_from_session w = (w, Raise InvalidId) /\
     _get_optional_uid_from_session w = (w, Raise InvalidId)) /\
  (fst (_get_uid_from_session w) <> w ->
   exists uid oid,
     session w !! "uid" = Some uid /\
     PydanticObjectId uid = Some oid /\
     user_exists (users w) oid = false).
Proof.
  unfold _get_uid_from_session, _get_optional_uid_from_session. run_py.
  split; [| split].
  - intros Hnone. now rewrite Hnone.
  - intros uid Huid Hbad. rewrite Huid. simpl. now rewrite Hbad.
  - destruct (session w !! "uid") as [uid|] eqn:Huid; simpl; [| contradiction].
    destruct (PydanticObjectId uid) as [oid|] eqn:Hoid; simpl; [| contradiction].
    destruct (user_exists (users w) oid) eqn:Hlive; simpl; [contradiction |].
    intros _. exists uid, oid. repeat split; assumption.
Qed.
End DependencyOutcomes.

(** ** The widget verifier in time *)

Section VerifierWindow.
Context `{Settings} `{Crypto}.

(** The verifier accepts only inside the window between the two floats the
    code computes. *)
Lemma validate_widget_hash_window (now : Q) (telegram_data : TelegramWidgetData) :
  validate_widget_hash now telegram_data = true ->
  (binary64 (now - 5 * 60) < inject_Z (auth_date telegram_data))%Q /\
  (inject_Z (auth_date telegram_data) < binary64 (now + 5 * 60))%Q.
Proof.
  unfold validate_widget_hash. rewrite <- !Qltb_lt.
  destruct (Qltb (binary64 (now - 5 * 60)) _), (Qltb _ (binary64 (now + 5 * 60))); simpl;
    intuition discriminate.
Qed.

(** X10: a payload the verifier accepts at two moments is accepted within a
    span shorter than ten minutes: the two moments differ by less than 600
    seconds, so a captured payload cannot be replayed later than that. *)
Theorem widget_payload_lifetime (t1 t2 : Q) (telegram_data : TelegramWidgetData) :
  validate_widget_hash t1 telegram_data = true ->
  validate_widget_hash t2 telegram_data = true ->
  (t2 - t1 < 600)%Q /\ (t1 - t2 < 600)%Q.
Proof.
  intros H1 H2.
  apply validate_widget_hash_window in H1 as [Hlo1 Hhi1].
  apply validate_widget_hash_window in H2 as [Hlo2 Hhi2].
  pose proof (binary64_lt_inv _ _ (Qlt_trans _ _ _ Hlo2 Hhi1)) as H21.
  pose proof (binary64_lt_inv _ _ (Qlt_trans _ _ _ Hlo1 Hhi2)) as H12.
  split; lra.
Qed.

(** X11: the window is open at both ends: for a timestamp below 2^53 in
    magnitude, a payload dated exactly five minutes before now, or exactly five
    minutes after, is refused whatever its hash. *)
Theorem widget_window_ends_refused (now : Q) (telegram_data : TelegramWidgetData) :
  (Z.abs (auth_date telegram_data) < 2 ^ 53)%Z ->
  (inject_Z (auth_date telegram_data) == now - 5 * 60)%Q \/
  (inject_Z (auth_date telegram_data) == now + 5 * 60)%Q ->
  validate_widget_hash now telegram_data = false.
Proof.
  intros Hsmall Hedge. apply not_true_iff_false. intros Hvalid.
  apply validate_widget_hash_window in Hvalid as [Hlo Hhi].
  pose proof (binary64_inject_Z (auth_date telegram_data) Hsmall) as Hexact.
  destruct Hedge as [Hedge | Hedge];
    pose proof (binary64_eq _ _ Hedge) as Hround; lra.
Qed.
End VerifierWindow.

(** ** The widget login and connect routes *)

Section WidgetRoutes.
Context `{Settings} `{Crypto} `{UserRepositoryWrites}.

(** X12: the widget login never writes to the users, and it leaves the
    session as it was unless it answers need_to_connect false: a refused
    payload, an unknown telegram id and the need_to_connect true answer change
    nothing. *)
Theorem telegram_login_frame
    (now : Q) (telegram_data : TelegramWidgetData) (caller : option ObjectId) (w : World) :
  users (fst (telegram_login now telegram_data caller w)) = users w /\
  (snd (telegram_login now telegram_data caller w) <> Return {| need_to_connect := false |} ->
   fst (telegram_login now telegram_data caller w) = w).
Proof.
  unfold telegram_login.
  destruct (validate_widget_hash now telegram_data); simpl; [| auto].
  run_py.
  destruct (read_by_telegram_id (users w) (tg_id telegram_data)) as [user|];
    destruct caller; simpl; auto.
  all: split; [reflexivity | intros Hne; now contradiction Hne].
Qed.

(** X13: the connect request writes to the users only for a session that
    holds a well-formed uid and a payload the verifier accepts: when it
    returns, the payload verified, the session is as it was, and the users are
    what [update_telegram] made of them for the session's uid; with a payload
    the verifier refuses, the users are as they were. *)
Theorem telegram_connect_request_writes
    (now : Q) (telegram_data : TelegramWidgetData) (w : World) :
  (forall w',
     telegram_connect_request now telegram_data w = (w', Return tt) ->
     validate_widget_hash now telegram_data = true /\
     session w' = session w /\
     exists uid oid,
       session w !! "uid" = Some uid /\
       PydanticObjectId uid = Some oid /\
       update_telegram oid telegram_data (users w) = (users w', Return tt)) /\
  (validate_widget_hash now telegram_data = false ->
   users (fst (telegram_connect_request now telegram_data w)) = users w).
Proof.
  unfold telegram_connect_request, telegram_connect,
         _get_uid_from_session, _get_optional_uid_from_session, on_users.
  run_py.
  destruct (session w !! "uid") as [uid|] eqn:Huid; simpl;
    [| split; [intros w'; discriminate | reflexivity]].
  destruct (PydanticObjectId uid) as [oid|] eqn:Hoid; simpl;
    [| split; [intros w'; discriminate | reflexivity]].
  destruct (user_exists (users w) oid); simpl;
    [| split; [intros w'; discriminate | reflexivity]].
  destruct (validate_widget_hash now telegram_data); simpl;
    [| split; [intros w'; discriminate | reflexivity]].
  split; [| discriminate].
  intros w'.
  destruct (update_telegram oid telegram_data (users w)) as [users' [[] | e]] eqn:Hupd;
    [| discriminate].
  intros [= <-]. simpl. split; [reflexivity |]. split; [reflexivity |].
  exists uid, oid. repeat split; first [assumption | reflexivity].
Qed.

(** X14: connecting and then logging in: when the connect handler linked the
    payload's telegram id to a user, so that the repository now finds that user
    by it, a login with the same payload, while the verifier still accepts it,
    binds the session to that user whoever the caller is. *)
Theorem connect_then_login
    (now later : Q) (telegram_data : TelegramWidgetData)
    (oid : ObjectId) (caller : option ObjectId) (w : World)
    (users' : UserRepo) (user : User) :
  validate_widget_hash now telegram_data = true ->
  validate_widget_hash later telegram_data = true ->
  update_telegram oid telegram_data (users w) = (users', Return tt) ->
  read_by_telegram_id users' (tg_id telegram_data) = Some user ->
  User_id user = oid ->
  telegram_connect now telegram_data oid w
    = ({| session := session w; users := users' |}, Return tt) /\
  telegram_login later telegram_data caller {| session := session w; users := users' |}
    = ({| session := {["uid" := str_of_oid oid]}; users := users' |},
       Return {| need_to_connect := false |}).
Proof.
  intros Hnow Hlater Hupd Hread Hid. split.
  - unfold telegram_connect. rewrite Hnow. simpl. unfold on_users. now rewrite Hupd.
  - unfold telegram_login. rewrite Hlater. run_py. rewrite Hread. simpl.
    unfold with_session. simpl. now rewrite insert_empty, Hid.
Qed.
End WidgetRoutes.

(** ** From a login to the next request *)

Section LoginThenDependency.
Context `{Settings} `{UrlLib} `{OAuthClient}.

(** X15: after a callback that returned on a token, the next request's
    required dependency resolves to the user the callback registered, provided
    the identifier reads back from its text and the repository has the user it
    just registered. *)
Theorem callback_then_dependency
    (request : Request) (w w1 w' : World) (token : Token) (response : Response) :
  truthy (query_params request !! "error") = false ->
  on_session (authorize_access_token request) w = (w1, Return token) ->
  innopolis_callback request w = (w', Return response) ->
  let user := (register_or_update_via_innopolis_sso
                 (users w1) (from_token_and_userinfo token)).2 in
  PydanticObjectId (str_of_oid (User_id user)) = Some (User_id user) ->
  user_exists (users w') (User_id user) = true ->
  _get_uid_from_session w' = (w', Return (User_id user)).
Proof.
  intros Herr Hex Hrun user Hback Hlive.
  rewrite (innopolis_callback_token_path request w w1 token Herr Hex) in Hrun.
  rewrite callback_with_token_run in Hrun.
  destruct (session w1 !! "redirect_uri") as [uri|]; [| discriminate].
  destruct (ensure_allowed_redirect_uri uri); [| discriminate].
  injection Hrun as <- _.
  apply (live_uid_resolves _ (str_of_oid (User_id user)) (User_id user)).
  - simpl. apply lookup_singleton_eq.
  - exact Hback.
  - exact Hlive.
Qed.
End LoginThenDependency.

(** * The sample deployment on the further properties *)

Section FurtherSamples.
#[local] Existing Instances
  sample_settings sample_urllib sample_crypto sample_bson sample_repository
  sample_oauth sample_writes.

Lemma login_refused_leaves_state_witness :
  ensure_allowed_redirect_uri "https://evil.example/" <> Return tt /\
  innopolis_login_or_register "https://evil.example/" bare_request (Some tt)
    (sample_world {["uid" := bob]} two_users)
  = (sample_world {["uid" := bob]} two_users, Raise InvalidReturnToURL).
Proof.
  split.
  - vm_compute. discriminate.
  - apply login_refused_leaves_state. vm_compute. discriminate.
Defined.

Lemma login_forgets_prior_session_witness :
  innopolis_login_or_register "/dashboard" bare_request None
    (sample_world {["uid" := bob]} two_users)
  = innopolis_login_or_register "/dashboard" bare_request None
      (sample_world {["prompt" := "none"]} two_users).
Proof.
  exact (login_forgets_prior_session "/dashboard" bare_request None
           (sample_world {["uid" := bob]} two_users)
           (sample_world {["prompt" := "none"]} two_users)
           eq_refl eq_refl).
Defined.

Lemma callback_success_binds_registered_user_witness :
  innopolis_callback code_request (sample_world silent_session two_users)
  = (sample_world {["uid" := carol]} (two_users ++ [(carol, None)])%list,
     Return (RedirectResponse (LocStr "/dashboard") 302)).
Proof.
  exact (callback_success_binds_registered_user code_request
           (sample_world silent_session two_users)
           (sample_world {["redirect_uri" := "/dashboard"; "prompt" := "none"]} two_users)
           carol "/dashboard" eq_refl eq_refl eq_refl eq_refl).
Defined.

(** A session that still names bob and holds an address outside the allow-list. *)
Lemma callback_success_refused_target_witness :
  innopolis_callback code_request
    (sample_world {["uid" := bob; "redirect_uri" := "https://evil.example/";
                    "_state_innopolis_s1" := callback_address]} two_users)
  = (sample_world {["uid" := bob]} (two_users ++ [(carol, None)])%list,
     Raise InvalidReturnToURL).
Proof.
  refine (callback_success_refused_target code_request
            (sample_world {["uid" := bob; "redirect_uri" := "https://evil.example/";
                            "_state_innopolis_s1" := callback_address]} two_users)
            (sample_world {["uid" := bob; "redirect_uri" := "https://evil.example/"]} two_users)
            carol "https://evil.example/" eq_refl eq_refl eq_refl _).
  vm_compute. discriminate.
Defined.

Lemma callback_response_shapes_witness :
  (exists location,
     RedirectResponse (LocStr "/dashboard") 302 = RedirectResponse location 302) \/
  (exists content,
     RedirectResponse (LocStr "/dashboard") 302 = JSONResponse 403 content /\
     truthy (query_params code_request !! "error") = true /\
     session (sample_world silent_session two_users) !! "prompt" <> Some "none").
Proof.
  exact (callback_response_shapes code_request
           (sample_world silent_session two_users)
           (sample_world {["uid" := carol]} (two_users ++ [(carol, None)])%list)
           (RedirectResponse (LocStr "/dashboard") 302) eq_refl).
Defined.

Lemma callback_redirects_are_guarded_witness :
  LocStr "/dashboard" = LocStr "https://innohassle.ru" \/
  exists uri,
    ensure_allowed_redirect_uri uri = Return tt /\
    (LocStr "/dashboard" = LocStr uri \/
     LocStr "/dashboard"
     = LocURL (include_query_params
                 (url_for code_request "innopolis_login_or_register")
                 [("redirect_uri", uri)])).
Proof.
  exact (callback_redirects_are_guarded code_request
           (sample_world silent_session two_users)
           (sample_world {["uid" := carol]} (two_users ++ [(carol, None)])%list)
           (LocStr "/dashboard") 302 eq_refl).
Defined.

Lemma guard_accepts_under_wider_list_witness :
  @ensure_allowed_redirect_uri narrow_settings sample_urllib "https://innohassle.ru/me"
  = Return tt /\
  @ensure_allowed_redirect_uri sample_settings sample_urllib "https://innohassle.ru/me"
  = Return tt.
Proof.
  split; [reflexivity |].
  apply (guard_accepts_under_wider_list narrow_settings sample_settings).
  - intros host Hhost. apply list_elem_of_singleton in Hhost as ->.
    apply (bool_decide_unpack _). vm_compute. exact I.
  - reflexivity.
Defined.

Lemma session_user_is_session_uid_witness :
  _get_uid_from_session (sample_world {["uid" := alice; "prompt" := "none"]} two_users)
  = (sample_world {["uid" := alice; "prompt" := "none"]} two_users, Return alice) /\
  exists uid,
    session (sample_world {["uid" := alice; "prompt" := "none"]} two_users) !! "uid"
    = Some uid /\
    PydanticObjectId uid = Some alice.
Proof.
  assert (Hrun : _get_uid_from_session
                   (sample_world {["uid" := alice; "prompt" := "none"]} two_users)
                 = (sample_world {["uid" := alice; "prompt" := "none"]} two_users,
                    Return alice)) by reflexivity.
  split; [exact Hrun |].
  exact (proj2 (session_user_is_session_uid _ _ _ Hrun)).
Defined.

Lemma missing_or_malformed_uid_keeps_session_witness :
  _get_uid_from_session (sample_world issued_session two_users)
  = (sample_world issued_session two_users, Raise UserWithoutSessionException) /\
  _get_uid_from_session (sample_world {["uid" := "not-an-identifier"]} two_users)
  = (sample_world {["uid" := "not-an-identifier"]} two_users, Raise InvalidId).
Proof.
  split.
  - exact (proj1 (proj1 (missing_or_malformed_uid_keeps_session
                           (sample_world issued_session two_users)) eq_refl)).
  - exact (proj1 (proj1 (proj2 (missing_or_malformed_uid_keeps_session
                                  (sample_world {["uid" := "not-an-identifier"]} two_users)))
                    "not-an-identifier" eq_refl eq_refl)).
Defined.

Lemma widget_payload_lifetime_witness :
  validate_widget_hash (1700000100 # 1) payload_777 = true /\
  validate_widget_hash (1699999900 # 1) payload_777 = true /\
  ((1699999900 # 1) - (1700000100 # 1) < 600)%Q /\
  ((1700000100 # 1) - (1699999900 # 1) < 600)%Q.
Proof.
  split; [reflexivity | split; [reflexivity |]].
  exact (widget_payload_lifetime (1700000100 # 1) (1699999900 # 1) payload_777
           eq_refl eq_refl).
Defined.

Lemma widget_window_ends_refused_witness :
  (Z.abs (auth_date payload_777) < 2 ^ 53)%Z /\
  (inject_Z (auth_date payload_777) == (1700000300 # 1) - 5 * 60)%Q /\
  validate_widget_hash (1700000300 # 1) payload_777 = false.
Proof.
  split; [reflexivity | split; [reflexivity |]].
  apply widget_window_ends_refused; [reflexivity | left; reflexivity].
Defined.

Lemma telegram_login_frame_witness :
  snd (telegram_login (1700000100 # 1) payload_888 (Some bob)
         (sample_world {["uid" := bob]} two_users))
  <> Return {| need_to_connect := false |} /\
  fst (telegram_login (1700000100 # 1) payload_888 (Some bob)
         (sample_world {["uid" := bob]} two_users))
  = sample_world {["uid" := bob]} two_users.
Proof.
  split.
  - vm_compute. discriminate.
  - refine (proj2 (telegram_login_frame (1700000100 # 1) payload_888 (Some bob)
                     (sample_world {["uid" := bob]} two_users)) _).
    vm_compute. discriminate.
Defined.

Lemma telegram_connect_request_writes_witness :
  telegram_connect_request (1700000100 # 1) payload_888
    (sample_world {["uid" := bob]} two_users)
  = (sample_world {["uid" := bob]} [(alice, Some 777); (bob, Some 888)], Return tt) /\
  validate_widget_hash (1700000100 # 1) payload_888 = true /\
  users (fst (telegram_connect_request (1700000300 # 1) payload_888
                (sample_world {["uid" := bob]} two_users)))
  = two_users.
Proof.
  split; [reflexivity | split].
  - exact (proj1 (proj1 (telegram_connect_request_writes (1700000100 # 1) payload_888
                           (sample_world {["uid" := bob]} two_users))
                    (sample_world {["uid" := bob]} [(alice, Some 777); (bob, Some 888)])
                    eq_refl)).
  - exact (proj2 (telegram_connect_request_writes (1700000300 # 1) payload_888
                    (sample_world {["uid" := bob]} two_users))
             eq_refl).
Defined.

Lemma connect_then_login_witness :
  telegram_connect (1700000100 # 1) payload_888 bob (sample_world ∅ two_users)
  = (sample_world ∅ [(alice, Some 777); (bob, Some 888)], Return tt) /\
  telegram_login (1700000200 # 1) payload_888 (Some alice)
    (sample_world ∅ [(alice, Some 777); (bob, Some 888)])
  = (sample_world {["uid" := bob]} [(alice, Some 777); (bob, Some 888)],
     Return {| need_to_connect := false |}).
Proof.
  exact (connect_then_login (1700000100 # 1) (1700000200 # 1) payload_888
           bob (Some alice) (sample_world ∅ two_users)
           [(alice, Some 777); (bob, Some 888)] (Build_User sample_bson bob)
           eq_refl eq_refl eq_refl eq_refl eq_refl).
Defined.

Lemma callback_then_dependency_witness :
  innopolis_callback code_request (sample_world silent_session two_users)
  = (sample_world {["uid" := carol]} (two_users ++ [(carol, None)])%list,
     Return (RedirectResponse (LocStr "/dashboard") 302)) /\
  _get_uid_from_session (sample_world {["uid" := carol]} (two_users ++ [(carol, None)])%list)
  = (sample_world {["uid" := carol]} (two_users ++ [(carol, None)])%list, Return carol).
Proof.
  split; [reflexivity |].
  exact (callback_then_dependency code_request
           (sample_world silent_session two_users)
           (sample_world {["redirect_uri" := "/dashboard"; "prompt" := "none"]} two_users)
           (sample_world {["uid" := carol]} (two_users ++ [(carol, None)])%list)
           carol (RedirectResponse (LocStr "/dashboard") 302)
           eq_refl eq_refl eq_refl eq_refl eq_refl).
Defined.
End FurtherSamples.
